(** * producer_krita: range-restricted, variable-speed audio producer

    A shallow embedding of [src/modules/krita/producer_krita.c] and the
    properties its design document states about it.

    The C code is modelled the way it is written:
    - [int] is a 32-bit two's complement integer, carried as a [Z] with
      the wrap-around of [+] and [-] written out ([to_int]); [%] is the
      truncating remainder and has no result for a zero divisor;
    - [double] is an IEEE-754 binary64 value ([spec_float] at precision 53),
      with the C conversions between [int] and [double]; a conversion to
      [int] of a value that does not fit has no result;
    - a function whose C execution would be undefined on an input returns
      [None] on it;
    - producers live in a store indexed by handles (the C pointers), so that
      a frame which remembers a producer sees later changes of its
      properties;
    - the services of the host framework that the file calls but does not
      define (retrieving the rest of the audio chain, the inner producer's
      frame retrieval and seek) are parameters of the development. *)

From Stdlib Require Import ZArith Lia Bool List SpecFloat.
From stdpp Require Import base option strings gmap.

Local Open Scope Z_scope.

(** ** C integers *)

Module CInt.

Definition INT_MIN : Z := -2147483648.
Definition INT_MAX : Z := 2147483647.

(** The values an [int] can hold. *)
Definition int_range (z : Z) : Prop := INT_MIN <= z <= INT_MAX.

Definition in_int_range (z : Z) : bool := (INT_MIN <=? z) && (z <=? INT_MAX).

(** Reduction of a mathematical integer to the [int] it is stored as. *)
Definition to_int (z : Z) : Z := (z + 2147483648) mod 4294967296 - 2147483648.

Definition int_add (a b : Z) : Z := to_int (a + b).
Definition int_sub (a b : Z) : Z := to_int (a - b).

(** [a % b]: the remainder of the division truncated towards zero,
    undefined for [b == 0] and for [INT_MIN % -1]. *)
Definition int_rem (a b : Z) : option Z :=
  if b =? 0 then None
  else if (a =? INT_MIN) && (b =? -1) then None
  else Some (Z.rem a b).

(** C truth value of an [int]. *)
Definition truthy (z : Z) : bool := negb (z =? 0).

End CInt.
Import CInt.

(** ** The two helpers of the range restriction *)

(** Modelled from the spec: the [MAX] macro of the host framework's headers,
    which is not part of the file; the spec reads it as the larger of its
    two arguments, and as a macro it expands to a comparison and a choice. *)
Definition MAX (x y : Z) : Z := if x >? y then x else y.

(** [static int restrict_range(int index, int min, int max)] *)
Definition restrict_range (index min max : Z) : option Z :=
  let span := int_sub max min in
  r ← int_rem (MAX (int_sub index min) 0) (int_add span 1);
  Some (int_add r min).

(** [static int is_valid_range(const int frame_start, const int frame_end)] *)
Definition is_valid_range (frame_start frame_end : Z) : Z :=
  let NON_NEGATIVE : bool := (frame_start >=? 0) && (frame_end >=? 0) in
  let NON_INVERTED : bool := frame_end >? frame_start in
  Z.b2z (NON_NEGATIVE && NON_INVERTED).

(** The restriction as the design document words it, over the mathematical
    integers: clamp the offset below at zero, wrap it with period
    [max - min + 1], shift back by [min]. *)
Definition restrict_spec (index min max : Z) : Z :=
  (Z.max (index - min) 0) mod (max - min + 1) + min.

(** ** C doubles *)

Module CDouble.

(** IEEE-754 binary64. *)
Definition double : Type := spec_float.
Definition prec : Z := 53.
Definition emax : Z := 1024.

Definition fabs (x : double) : double := SFabs x.
Definition double_mul (x y : double) : double := SFmul prec emax x y.
Definition double_lt (x y : double) : bool := SFltb x y.

(** The literal [0.0]. *)
Definition double_zero : double := S754_zero false.

Definition is_zero (x : double) : bool :=
  match x with S754_zero _ => true | _ => false end.

(** [(double) z] for an integer [z]; exact on the whole range of [int]. *)
Definition int_to_double (z : Z) : double := binary_normalize prec emax z 0 false.

(** The integer part of a finite double, rounded towards zero. *)
Definition truncate (s : bool) (m : positive) (e : Z) : Z :=
  let magnitude :=
    match e with
    | Z0 => Zpos m
    | Zpos k => Zpos m * 2 ^ Zpos k
    | Zneg k => Zpos m / 2 ^ Zpos k
    end in
  if s then - magnitude else magnitude.

(** [(int) x]: the conversion has a result only when the truncated value
    fits an [int]; for the other values, infinities and NaN it is
    undefined. *)
Definition double_to_int (x : double) : option Z :=
  match x with
  | S754_zero _ => Some 0
  | S754_finite s m e =>
      let z := truncate s m e in
      if in_int_range z then Some z else None
  | S754_infinity _ | S754_nan => None
  end.

End CDouble.
Import CDouble.

(** ** The framework's data, as far as the producer touches it *)

(** A property value.  Positions are stored as integers. *)
Inductive mlt_property :=
| prop_int (i : Z)
| prop_double (d : double).

(** A property table: named, dynamically typed values. *)
Abbreviation property_table := (gmap string mlt_property).

(** Modelled from the spec: reading a named configuration field as an [int].
    The accessor belongs to the host framework and is not part of the file.
    An absent field reads as 0, a stored double is converted as by a cast. *)
Definition property_table_get_int (t : property_table) (name : string) : option Z :=
  match t !! name with
  | None => Some 0
  | Some (prop_int i) => Some (to_int i)
  | Some (prop_double d) => double_to_int d
  end.

(** Modelled from the spec: reading a named configuration field as a
    [double]; an absent field reads as [0.0]. *)
Definition property_table_get_double (t : property_table) (name : string) : double :=
  match t !! name with
  | None => double_zero
  | Some (prop_int i) => int_to_double (to_int i)
  | Some (prop_double d) => d
  end.

(** Producers are referred to by handle (the C pointer). *)
Abbreviation mlt_producer := positive (only parsing).

(** The handle of a property table is the handle of the object that owns it. *)
Abbreviation mlt_properties := positive (only parsing).

(** [typedef struct { mlt_producer producer_internal; } private_data;] *)
Record private_data := { producer_internal : mlt_producer }.

(** What the store keeps for a producer: its properties and its [child]. *)
Record mlt_producer_s := {
  properties : property_table;
  child : option private_data
}.

(** The objects reachable through producer handles. *)
Abbreviation store := (gmap positive mlt_producer_s).

Inductive mlt_audio_format :=
| mlt_audio_none
| mlt_audio_s16
| mlt_audio_s32
| mlt_audio_float
| mlt_audio_s32le
| mlt_audio_f32le
| mlt_audio_u8.

(** One value per channel, for one instant. *)
Abbreviation sample_group := (list Z) (only parsing).

(** [struct mlt_audio_s], and also the five in/out parameters of an audio
    callback taken together.  [data] is the buffer read in temporal order,
    one sample group after the other. *)
Record mlt_audio_s := {
  data : list sample_group;
  frequency : Z;
  format : mlt_audio_format;
  samples : Z;
  channels : Z
}.

(** The audio callbacks a frame can carry: the one of this file, or one of
    the rest of the framework, known by a number. *)
Inductive mlt_get_audio :=
| fn_producer_get_audio
| fn_foreign (id : nat).

(** An item of a frame's audio stack (a [void *] in C). *)
Inductive audio_item :=
| item_producer (p : mlt_producer)
| item_get_audio (f : mlt_get_audio).

(** A frame: its own properties and its stack of pending audio steps, most
    recently pushed first. *)
Record mlt_frame_s := {
  frame_properties : property_table;
  stack_audio : list audio_item
}.

(** ** The framework's operations *)

(** Modelled from the spec: [mlt_audio_set_values], which fills an audio
    structure from the five values. *)
Definition mlt_audio_set_values (buffer : list sample_group) (frequency : Z)
    (format : mlt_audio_format) (samples channels : Z) : mlt_audio_s :=
  {| data := buffer; frequency := frequency; format := format;
     samples := samples; channels := channels |}.

(** Modelled from the spec: [mlt_audio_get_values], which copies the five
    values of an audio structure to the caller's parameters. *)
Definition mlt_audio_get_values (self : mlt_audio_s) : mlt_audio_s :=
  mlt_audio_set_values (data self) (frequency self) (format self)
                       (samples self) (channels self).

(** Modelled from the spec: [mlt_audio_reverse], which reverses the temporal
    order of the samples, each sample group moved as a unit, and leaves the
    rate, the format and the counts alone. *)
Definition mlt_audio_reverse (self : mlt_audio_s) : mlt_audio_s :=
  {| data := rev (data self); frequency := frequency self;
     format := format self; samples := samples self;
     channels := channels self |}.

(** Modelled from the spec: [mlt_frame_push_audio], attach on top. *)
Definition mlt_frame_push_audio (self : mlt_frame_s) (that : audio_item) : mlt_frame_s :=
  {| frame_properties := frame_properties self;
     stack_audio := that :: stack_audio self |}.

(** Modelled from the spec: [mlt_frame_pop_audio], detach the top item;
    nothing (a null pointer) when the stack is empty. *)
Definition mlt_frame_pop_audio (self : mlt_frame_s) : option audio_item * mlt_frame_s :=
  match stack_audio self with
  | [] => (None, self)
  | that :: rest =>
      (Some that, {| frame_properties := frame_properties self; stack_audio := rest |})
  end.

(** Modelled from the spec: [mlt_frame_is_test_audio], the frame's
    placeholder flag, read as an [int]. *)
Definition mlt_frame_is_test_audio (self : mlt_frame_s) : option Z :=
  property_table_get_int (frame_properties self) "test_audio".

(** [MLT_PRODUCER_PROPERTIES(producer)]: the properties are the first member
    of the producer, so the handle is the same. *)
Definition MLT_PRODUCER_PROPERTIES (producer : mlt_producer) : mlt_properties := producer.

(** Modelled from the spec: [mlt_properties_get_int] and
    [mlt_properties_get_double], the read access to the named fields of the
    object behind a handle.  Reading through a handle that refers to nothing
    is undefined. *)
Definition mlt_properties_get_int (w : store) (self : mlt_properties) (name : string) : option Z :=
  o ← w !! self; property_table_get_int (properties o) name.

Definition mlt_properties_get_double (w : store) (self : mlt_properties) (name : string) : option double :=
  o ← w !! self; Some (property_table_get_double (properties o) name).

(** Modelled from the spec: [mlt_properties_set_position], which stores a
    position under a name in the table behind the handle. *)
Definition mlt_properties_set_position (w : store) (self : mlt_properties)
    (name : string) (value : Z) : option store :=
  o ← w !! self;
  Some (<[self := {| properties := <[name := prop_int value]> (properties o);
                     child := child o |}]> w).

(** Modelled from the spec: [mlt_properties_set_double], by which the host
    changes a configuration field such as the speed. *)
Definition mlt_properties_set_double (w : store) (self : mlt_properties)
    (name : string) (value : double) : option store :=
  o ← w !! self;
  Some (<[self := {| properties := <[name := prop_double value]> (properties o);
                     child := child o |}]> w).

(** Modelled from the spec: [mlt_producer_position], the producer's current
    read position, kept in its [_position] property. *)
Definition mlt_producer_position (w : store) (self : mlt_producer) : option Z :=
  mlt_properties_get_int w (MLT_PRODUCER_PROPERTIES self) "_position".

(** The services the producer delegates to.  Their code is not part of the
    file, and nothing is assumed about them:
    - [mlt_frame_get_audio] resolves the rest of a frame's audio chain, from
      the values the caller passes in, to a status and the raw audio;
    - [mlt_service_get_frame] asks a producer for the frame at an index;
    - [mlt_producer_seek] moves a producer to a position. *)
Class mlt_framework := {
  mlt_frame_get_audio : store -> mlt_frame_s -> mlt_audio_s -> Z * mlt_audio_s * mlt_frame_s * store;
  mlt_service_get_frame : store -> mlt_producer -> Z -> Z * mlt_frame_s * store;
  mlt_producer_seek : store -> mlt_producer -> Z -> Z * store
}.

(** ** The producer *)

(** The popped item cast to [mlt_producer]. *)
Definition as_producer (item : option audio_item) : option mlt_producer :=
  match item with
  | Some (item_producer p) => Some p
  | _ => None
  end.

(** The speed transform as the design document words it: the rate scaled
    by the magnitude of the speed and brought back to an integer, the samples
    reversed for a negative speed, channels and format kept. *)
Definition speed_audio_transform (speed : double) (input : mlt_audio_s) : option mlt_audio_s :=
  rate ← double_to_int (double_mul (int_to_double (frequency input)) (fabs speed));
  Some {| data := if double_lt speed double_zero then rev (data input) else data input;
          frequency := rate;
          format := format input;
          samples := samples input;
          channels := channels input |}.

Section Producer.
Context `{framework : mlt_framework}.

(** [static int producer_get_audio(mlt_frame frame, void **buffer,
    mlt_audio_format *format, int *frequency, int *channels, int *samples)].
    [params] holds what the five pointers refer to on entry; the result
    holds the status, what they refer to on return, the frame and the
    store. *)
Definition producer_get_audio (w : store) (frame : mlt_frame_s) (params : mlt_audio_s)
    : option (Z * mlt_audio_s * mlt_frame_s * store) :=
  let '(top, frame) := mlt_frame_pop_audio frame in
  producer ← as_producer top;
  let audio := mlt_audio_set_values (data params) (frequency params) (format params)
                                    (samples params) (channels params) in
  let '(error, audio, frame, w) := mlt_frame_get_audio w frame audio in
  let props := MLT_PRODUCER_PROPERTIES producer in
  SPEED ← mlt_properties_get_double w props "speed";
  scaled ← double_to_int (double_mul (int_to_double (frequency audio)) (fabs SPEED));
  let audio := mlt_audio_set_values (data audio) scaled (format audio)
                                    (samples audio) (channels audio) in
  let audio := if double_lt SPEED double_zero then mlt_audio_reverse audio else audio in
  Some (error, mlt_audio_get_values audio, frame, w).

(** The conditional of [producer_get_frame] that moves the inner producer:
    with the restriction enabled and the range valid, the inner producer's
    [_position] becomes the restricted position; otherwise the store is
    handed on as it is. *)
Definition remap_position (w : store) (producer_internal : mlt_producer)
    (IS_RANGE_LIMITED : bool) (FRAME_START FRAME_END POSITION : Z) : option store :=
  if IS_RANGE_LIMITED && truthy (is_valid_range FRAME_START FRAME_END) then
    restricted ← restrict_range POSITION FRAME_START FRAME_END;
    mlt_properties_set_position w (MLT_PRODUCER_PROPERTIES producer_internal)
                                "_position" restricted
  else Some w.

(** The conditional of [producer_get_frame] that attaches the audio step:
    unless the frame is test audio, the producer and then the callback are
    pushed on the frame's audio stack. *)
Definition attach_audio_step (producer : mlt_producer) (frame : mlt_frame_s)
    : option mlt_frame_s :=
  test_audio ← mlt_frame_is_test_audio frame;
  Some (if negb (truthy test_audio) then
          mlt_frame_push_audio (mlt_frame_push_audio frame (item_producer producer))
                               (item_get_audio fn_producer_get_audio)
        else frame).

(** [static int producer_get_frame(mlt_producer producer, mlt_frame_ptr frame, int index)] *)
Definition producer_get_frame (w : store) (producer : mlt_producer) (index : Z)
    : option (Z * mlt_frame_s * store) :=
  let props := MLT_PRODUCER_PROPERTIES producer in
  FRAME_START ← mlt_properties_get_int w props "start_frame";
  FRAME_END ← mlt_properties_get_int w props "end_frame";
  limit_enabled ← mlt_properties_get_int w props "limit_enabled";
  let IS_RANGE_LIMITED := truthy limit_enabled in
  self ← w !! producer;
  pdata ← child self;
  POSITION ← mlt_producer_position w (producer_internal pdata);
  w ← remap_position w (producer_internal pdata) IS_RANGE_LIMITED
                     FRAME_START FRAME_END POSITION;
  let '(retval, frame, w) := mlt_service_get_frame w (producer_internal pdata) index in
  frame ← attach_audio_step producer frame;
  Some (retval, frame, w).

(** [static int producer_seek(mlt_producer producer, mlt_position position)] *)
Definition producer_seek (w : store) (producer : mlt_producer) (position : Z)
    : option (Z * store) :=
  self ← w !! producer;
  pdata ← child self;
  let retval := mlt_producer_seek w (producer_internal pdata) position in
  Some retval.

(** Modelled from the spec: what the host does when the audio of a frame
    is requested.  The most recently attached step runs first: when it is
    the step of this file, [producer_get_audio] runs on the frame without
    it; any other chain is resolved by the framework. *)
Definition frame_request_audio (w : store) (frame : mlt_frame_s) (params : mlt_audio_s)
    : option (Z * mlt_audio_s * mlt_frame_s * store) :=
  match mlt_frame_pop_audio frame with
  | (Some (item_get_audio fn_producer_get_audio), rest) =>
      producer_get_audio w rest params
  | _ => Some (mlt_frame_get_audio w frame params)
  end.

End Producer.

(** A framework whose answers are fixed, to run the producer on concrete
    inputs. *)
Definition fixed_framework (status : Z) (raw : mlt_audio_s) (produced : mlt_frame_s)
    : mlt_framework :=
  {| mlt_frame_get_audio w frame params := (status, raw, frame, w);
     mlt_service_get_frame w producer index := (status, produced, w);
     mlt_producer_seek w producer position := (status, w) |}.

(** ** Concrete objects *)

(** Three stereo sample groups at 48 kHz, as the rest of a chain may
    deliver them. *)
Definition demo_audio : mlt_audio_s :=
  {| data := [[1; 2]; [3; 4]; [5; 6]]; frequency := 48000;
     format := mlt_audio_s16; samples := 3; channels := 2 |}.

(** What a caller passes in when it asks for audio. *)
Definition demo_params : mlt_audio_s :=
  {| data := []; frequency := 44100; format := mlt_audio_s16;
     samples := 3; channels := 2 |}.

(** A producer restricted to the frames 10 to 20 and played at [speed],
    whose inner producer has the handle 2. *)
Definition demo_producer (speed : double) (limit_enabled : Z) : mlt_producer_s :=
  {| properties := {[ "speed" := prop_double speed;
                      "start_frame" := prop_int 10;
                      "end_frame" := prop_int 20;
                      "limit_enabled" := prop_int limit_enabled ]};
     child := Some {| producer_internal := 2 |} |}.

(** An inner producer standing at [position]. *)
Definition demo_inner (position : Z) : mlt_producer_s :=
  {| properties := {[ "_position" := prop_int position ]}; child := None |}.

(** The two of them, at the handles 1 and 2. *)
Definition demo_store (speed : double) (limit_enabled position : Z) : store :=
  {[ 1%positive := demo_producer speed limit_enabled;
     2%positive := demo_inner position ]}.

(** A frame as an inner producer hands it out, with its own audio step. *)
Definition demo_frame (test_audio : Z) : mlt_frame_s :=
  {| frame_properties := {[ "test_audio" := prop_int test_audio ]};
     stack_audio := [item_get_audio (fn_foreign 0)] |}.

(** ** Construction and teardown *)

(** What the constructor and the destructor do to the world, in the order in
    which they do it: calls into the framework and the C library, and stores
    to the producer structure and to the private data. *)
Inductive effect :=
| do_properties_set (self : mlt_properties) (name value : string)
| do_set_child (self : mlt_producer) (present : bool)
| do_set_get_frame (self : mlt_producer)
| do_set_seek (self : mlt_producer)
| do_set_close (self : mlt_producer) (present : bool)
| do_factory_producer (service resource : string)
| do_set_producer_internal (internal : option mlt_producer)
| do_producer_set_speed (self : mlt_producer) (speed : double)
| do_producer_close (self : option mlt_producer)
| do_free_pdata
| do_free_producer (self : mlt_producer).

(** What the allocating calls of the constructor answer: [mlt_producer_new]
    (a producer or null), [calloc] for the private data (done or not), and
    [mlt_factory_producer] for a service and a resource (a producer or
    null).  Nothing is assumed about the answers. *)
Record allocation := {
  new_producer : option mlt_producer;
  new_pdata : bool;
  factory_producer : string -> string -> option mlt_producer
}.

(** A null pointer. *)
Definition is_null {A} (pointer : option A) : bool :=
  match pointer with Some _ => false | None => true end.

(** The literal [1.0]. *)
Definition double_one : double := S754_finite false 4503599627370496 (-52).

(** [mlt_producer producer_krita_init(mlt_profile profile, mlt_service_type
    type, const char *id, char *arg)]: the producer returned (or null) and
    what was done on the way.  [internal] is [pdata->producer_internal],
    null after [calloc] until the factory has answered. *)
Definition producer_krita_init (env : allocation) (arg : option string)
    : option mlt_producer * list effect :=
  let producer := new_producer env in
  let pdata := new_pdata env in
  let '(internal, initialised) :=
    match arg, producer, pdata with
    | Some arg, Some producer, true =>
        let producer_properties := MLT_PRODUCER_PROPERTIES producer in
        let resource := arg in
        let internal := factory_producer env "abnormal" resource in
        (internal,
         [do_properties_set producer_properties "resource" arg;
          do_set_child producer true;
          do_set_get_frame producer;
          do_set_seek producer;
          do_set_close producer true;
          do_factory_producer "abnormal" resource;
          do_set_producer_internal internal]
         ++ match internal with
            | Some internal => [do_producer_set_speed internal double_one]
            | None => []
            end)
    | _, _, _ => (None, [])
    end in
  let INVALID_CONTEXT := is_null producer || negb pdata || is_null internal in
  if INVALID_CONTEXT then
    let release_pdata :=
      if pdata then [do_producer_close internal; do_free_pdata] else [] in
    let release_producer :=
      match producer with
      | Some producer =>
          [do_set_child producer false;
           do_set_close producer false;
           do_producer_close (Some producer);
           do_free_producer producer]
      | None => []
      end in
    (None, initialised ++ release_pdata ++ release_producer)
  else (producer, initialised).


(** Kinds of effects, to count them. *)
Definition closes (self : mlt_producer) (e : effect) : bool :=
  match e with
  | do_producer_close (Some closed) => Pos.eqb closed self
  | _ => false
  end.

Definition frees_producer (self : mlt_producer) (e : effect) : bool :=
  match e with
  | do_free_producer freed => Pos.eqb freed self
  | _ => false
  end.

Definition frees_pdata (e : effect) : bool :=
  match e with do_free_pdata => true | _ => false end.

Definition sets_speed (e : effect) : bool :=
  match e with do_producer_set_speed _ _ => true | _ => false end.

(** How many of the effects are of a kind. *)
Definition times (kind : effect -> bool) (effects : list effect) : nat :=
  length (List.filter kind effects).

(** Allocations for concrete runs: the producer gets the handle 1, and the
    factory knows the resource [clip.wav] only. *)
Definition demo_allocation (pdata : bool) : allocation :=
  {| new_producer := Some 1%positive;
     new_pdata := pdata;
     factory_producer service resource :=
       if String.eqb resource "clip.wav" then Some 2%positive else None |}.

(** ** Quantities used in the further properties *)

(** An integer times [2^j], brought back to an integer by rounding towards
    zero. *)
Definition scale_power_of_two (z j : Z) : Z :=
  if 0 <=? j then z * 2 ^ j else Z.quot z (2 ^ (- j)).

(** * Properties *)

(** ** C integers *)

Lemma in_int_range_spec z : in_int_range z = true <-> int_range z.
Proof.
  unfold in_int_range, int_range.
  rewrite andb_true_iff, !Z.leb_le. tauto.
Qed.

Lemma to_int_range z : int_range (to_int z).
Proof.
  unfold int_range, to_int, INT_MIN, INT_MAX.
  pose proof (Z.mod_pos_bound (z + 2147483648) 4294967296 eq_refl). lia.
Qed.

Lemma to_int_id z : int_range z -> to_int z = z.
Proof.
  unfold int_range, to_int, INT_MIN, INT_MAX. intros Hz.
  rewrite Z.mod_small by lia. lia.
Qed.

(** On a non-negative dividend the truncating remainder is the
    mathematical one by the absolute value of the divisor. *)
Lemma rem_nonneg_abs a b : 0 <= a -> b <> 0 -> Z.rem a b = a mod Z.abs b.
Proof.
  intros Ha Hb. destruct (Z.lt_total b 0) as [Hneg | [-> | Hpos]]; [| easy |].
  - rewrite Z.abs_neq by lia.
    replace b with (- - b) at 1 by lia.
    rewrite Z.rem_opp_r by lia. apply Z.rem_mod_nonneg; lia.
  - rewrite Z.abs_eq by lia. apply Z.rem_mod_nonneg; lia.
Qed.

(** Linear arithmetic over the bounds of [int]. *)
Ltac int_lia := unfold int_range, INT_MIN, INT_MAX in *; lia.

(** ** Range restriction: properties *)

Lemma MAX_max x y : MAX x y = Z.max x y.
Proof. unfold MAX. destruct (Z.gtb_spec x y); lia. Qed.

Lemma restrict_spec_bounds index min max :
  max > min -> min <= restrict_spec index min max <= max.
Proof.
  intros H. unfold restrict_spec.
  pose proof (Z.mod_pos_bound (Z.max (index - min) 0) (max - min + 1)). lia.
Qed.

(** Without overflow in the two subtractions the C function computes the
    mathematical restriction.  The divisor [span + 1] may still wrap (for
    [min = 0], [max = INT_MAX]); the remainder is not affected. *)
Lemma restrict_range_exact index min max :
  int_range min -> int_range max -> max > min ->
  int_range (index - min) -> int_range (max - min) ->
  restrict_range index min max = Some (restrict_spec index min max).
Proof.
  intros Hmin Hmax Hlt Hd Hs.
  pose proof (restrict_spec_bounds index min max Hlt) as Hb.
  unfold restrict_range, restrict_spec in *.
  unfold int_sub. rewrite (to_int_id (max - min)), (to_int_id (index - min)) by assumption.
  rewrite MAX_max.
  assert (Hoff : 0 <= Z.max (index - min) 0 <= INT_MAX) by int_lia.
  revert Hoff Hb. generalize (Z.max (index - min) 0). intros off Hoff Hb.
  unfold int_add.
  destruct (Z.eq_dec (max - min) INT_MAX) as [Hfull | Hpart].
  - (* the period is 2^31 and wraps to INT_MIN *)
    rewrite Hfull in *. change (to_int (INT_MAX + 1)) with INT_MIN.
    unfold int_rem. change (INT_MIN =? 0) with false.
    change (INT_MIN =? -1) with false. rewrite andb_false_r.
    cbn [mbind option_bind]. rewrite rem_nonneg_abs by int_lia.
    change (Z.abs INT_MIN) with (INT_MAX + 1) in *.
    rewrite to_int_id; [reflexivity | int_lia].
  - rewrite (to_int_id (max - min + 1)) by int_lia.
    unfold int_rem.
    destruct (Z.eqb_spec (max - min + 1) 0) as [?|_]; [lia|].
    destruct (Z.eqb_spec (max - min + 1) (-1)) as [?|_]; [lia|].
    rewrite andb_false_r. cbn [mbind option_bind].
    rewrite Z.rem_mod_nonneg in * by lia.
    rewrite to_int_id; [reflexivity | int_lia].
Qed.

Lemma is_valid_range_true frame_start frame_end :
  truthy (is_valid_range frame_start frame_end) = true <->
  frame_start >= 0 /\ frame_end >= 0 /\ frame_end > frame_start.
Proof.
  unfold is_valid_range, truthy.
  destruct (Z.geb_spec frame_start 0), (Z.geb_spec frame_end 0),
    (Z.gtb_spec frame_end frame_start); cbn; split; intros; (lia || congruence).
Qed.

(** C1 (as amended).  For 32-bit [index], [min] and [max] with [max > min]
    such that neither [index - min] nor [max - min] overflows, in particular
    for non-negative [index] and [min], [restrict_range] returns
    [(max(index - min, 0) mod (max - min + 1)) + min]; the call with
    (25, 10, 20) returns 14; and for [index <= min] the result is [min]. *)
Theorem restrict_range_without_overflow index min max :
  int_range index -> int_range min -> int_range max -> max > min ->
  int_range (index - min) -> int_range (max - min) ->
  restrict_range index min max = Some (restrict_spec index min max) /\
  restrict_range 25 10 20 = Some 14 /\
  (index <= min -> restrict_range index min max = Some min).
Proof.
  intros _ Hmin Hmax Hlt Hd Hs. split; [|split].
  - now apply restrict_range_exact.
  - reflexivity.
  - intros Hle. rewrite restrict_range_exact by assumption.
    unfold restrict_spec. rewrite Z.max_r by lia.
    rewrite Z.mod_0_l by lia. reflexivity.
Qed.

(** Above the range the index wraps, 31 to 20; below it clamps, 3 to 10. *)
Lemma restrict_range_without_overflow_witness :
  restrict_range 31 10 20 = Some 20 /\ restrict_range 3 10 20 = Some 10.
Proof.
  split.
  - exact (proj1 (restrict_range_without_overflow 31 10 20
                    ltac:(int_lia) ltac:(int_lia) ltac:(int_lia) ltac:(lia)
                    ltac:(int_lia) ltac:(int_lia))).
  - exact (proj2 (proj2 (restrict_range_without_overflow 3 10 20
                    ltac:(int_lia) ltac:(int_lia) ltac:(int_lia) ltac:(lia)
                    ltac:(int_lia) ltac:(int_lia)))
                 ltac:(lia)).
Defined.

(** C1 as stated fails where [index - min] overflows: for [index = INT_MIN]
    and the range [10, 20] the difference wraps to a large positive offset,
    and the result is 13 where the formula and the clamp give 10. *)
Lemma restrict_range_overflow_counterexample :
  int_range INT_MIN /\ 20 > 10 /\ INT_MIN <= 10 /\
  restrict_spec INT_MIN 10 20 = 10 /\
  restrict_range INT_MIN 10 20 = Some 13 /\
  restrict_range INT_MIN 10 20 <> Some (restrict_spec INT_MIN 10 20) /\
  restrict_range INT_MIN 10 20 <> Some 10.
Proof.
  repeat split; try discriminate; int_lia.
Qed.

(** C4.  [is_valid_range(start, end)] is true exactly when [start >= 0],
    [end >= 0] and [end > start]; its value is then 1 and otherwise 0; it is
    true for (10, 20) and false for (20, 10) and for (-1, 5). *)
Theorem is_valid_range_iff :
  (forall frame_start frame_end,
      (truthy (is_valid_range frame_start frame_end) = true <->
       frame_start >= 0 /\ frame_end >= 0 /\ frame_end > frame_start) /\
      (is_valid_range frame_start frame_end = 1 \/
       is_valid_range frame_start frame_end = 0)) /\
  is_valid_range 10 20 = 1 /\
  is_valid_range 20 10 = 0 /\
  is_valid_range (-1) 5 = 0.
Proof.
  split; [|repeat split].
  intros frame_start frame_end. split.
  - apply is_valid_range_true.
  - unfold is_valid_range.
    destruct ((frame_start >=? 0) && (frame_end >=? 0) && (frame_end >? frame_start));
      cbn; auto.
Qed.

(** ** C doubles *)

Lemma digits2_pos_size m : digits2_pos m = Pos.size m.
Proof. induction m; cbn; congruence. Qed.

Lemma digits2_pos_shift m n :
  digits2_pos (Pos.iter xO m n) = (digits2_pos m + n)%positive.
Proof.
  induction n as [|n IH] using Pos.peano_ind.
  - cbn. lia.
  - rewrite Pos.iter_succ. cbn [digits2_pos]. rewrite IH. lia.
Qed.

(** A non-zero [int] has at most 32 binary digits. *)
Lemma digits2_pos_int m : Zpos m <= 2147483648 -> Zpos (digits2_pos m) <= 32.
Proof.
  intros Hm. rewrite digits2_pos_size.
  destruct (Z.le_gt_cases (Zpos (Pos.size m)) 32) as [|Hgt]; [assumption|].
  exfalso. pose proof (Pos.size_le m) as Hle.
  apply Pos2Z.pos_le_pos in Hle. rewrite Pos2Z.inj_pow in Hle.
  assert (Hpow : 2 ^ 33 <= 2 ^ Zpos (Pos.size m))
    by (apply Z.pow_le_mono_r; lia).
  change (2 ^ 33) with 8589934592 in Hpow. lia.
Qed.

(** The conversion of an [int] is exact: the integer's digits, shifted to
    a 53-bit mantissa. *)
Lemma binary_round_int s m :
  Zpos m <= 2147483648 ->
  exists k, Zneg k = Zpos (digits2_pos m) - 53 /\
            binary_round prec emax s m 0 = S754_finite s (Pos.iter xO m k) (Zneg k).
Proof.
  intros Hm. pose proof (digits2_pos_int m Hm) as Hd.
  unfold binary_round.
  assert (Hf : forall d, 0 < d <= 53 -> fexp prec emax d = d - 53)
    by (intros; unfold fexp, emin, prec, emax; lia).
  rewrite Z.add_0_r, Hf by lia.
  unfold shl_align. rewrite Z.sub_0_r.
  destruct (Zpos (digits2_pos m) - 53) as [|k|k] eqn:Hk; try lia.
  exists k. split; [reflexivity|].
  unfold binary_round_aux, shr_fexp, Zdigits2.
  rewrite digits2_pos_shift.
  replace (Zpos (digits2_pos m + k) + Zneg k) with (Zpos (digits2_pos m)) by lia.
  rewrite Hf by lia. rewrite Hk, Z.sub_diag. cbn -[Pos.iter prec emax].
  rewrite digits2_pos_shift.
  replace (Zpos (digits2_pos m + k) + Zneg k) with (Zpos (digits2_pos m)) by lia.
  rewrite Hf by lia. rewrite Hk, Z.sub_diag. cbn -[Pos.iter prec emax].
  destruct (Z.leb_spec (Zneg k) (emax - prec)) as [_|Hbad]; [reflexivity|].
  unfold emax, prec in Hbad. lia.
Qed.

(** The double of an [int] is a zero or a finite number. *)
Lemma int_to_double_finite z :
  int_range z ->
  int_to_double z = S754_zero false \/
  exists s m e, int_to_double z = S754_finite s m e.
Proof.
  intros Hz. unfold int_to_double, binary_normalize.
  destruct z as [|m|m]; [left; reflexivity | right | right].
  - destruct (binary_round_int false m) as (k & _ & ->); [int_lia|]. eauto.
  - destruct (binary_round_int true m) as (k & _ & ->); [int_lia|]. eauto.
Qed.

(** Scaling by a zero speed gives the rate 0, whatever the rate was. *)
Lemma scale_by_zero z speed :
  int_range z -> is_zero speed = true ->
  double_to_int (double_mul (int_to_double z) (fabs speed)) = Some 0.
Proof.
  intros Hz Hs. destruct speed; try discriminate. cbn [fabs SFabs].
  destruct (int_to_double_finite z Hz) as [-> | (s' & m & e & ->)]; reflexivity.
Qed.

(** [x < 0.0] holds for the negative finite numbers and negative infinity
    only: not for the zeros, of either sign, and not for NaN. *)
Lemma double_lt_zero x :
  double_lt x double_zero = true <->
  x = S754_infinity true \/ exists m e, x = S754_finite true m e.
Proof.
  unfold double_lt, double_zero, SFltb.
  destruct x as [s|s| |s m e]; cbn; try destruct s; split;
    intros H; try discriminate; try reflexivity; eauto;
    destruct H as [H | (m' & e' & H)]; discriminate.
Qed.

(** ** The audio step *)

Lemma mlt_audio_set_values_eta a :
  mlt_audio_set_values (data a) (frequency a) (format a) (samples a) (channels a) = a.
Proof. destruct a; reflexivity. Qed.

Section AudioStep.
Context `{framework : mlt_framework}.

(** The audio step is the design document's transform, at the speed the
    producer has in the store once the rest of the chain has delivered,
    applied to what the rest of the chain delivered. *)
Lemma producer_get_audio_transform w frame params producer rest error raw frame' w' self :
  mlt_frame_pop_audio frame = (Some (item_producer producer), rest) ->
  mlt_frame_get_audio w rest params = (error, raw, frame', w') ->
  w' !! producer = Some self ->
  producer_get_audio w frame params =
    out ← speed_audio_transform (property_table_get_double (properties self) "speed") raw;
    Some (error, out, frame', w').
Proof.
  intros Hpop Hup Hself. unfold producer_get_audio.
  rewrite Hpop. cbn [as_producer mbind option_bind].
  rewrite mlt_audio_set_values_eta, Hup.
  unfold mlt_properties_get_double, MLT_PRODUCER_PROPERTIES.
  rewrite Hself. cbn [mbind option_bind].
  unfold speed_audio_transform.
  destruct (double_to_int _) as [rate|]; cbn [mbind option_bind]; [|reflexivity].
  destruct (double_lt _ _); reflexivity.
Qed.

(** C2.  The audio step sets the output rate to the rate of the raw audio
    times the magnitude of the speed, converted to [int]; where that
    conversion has no result the step has none; and for a zero speed the
    output rate is 0 and the step returns, with the status of the raw
    retrieval: a zero speed is no error of its own. *)
Theorem producer_get_audio_scales_rate
    w frame params producer rest error raw frame' w' self :
  mlt_frame_pop_audio frame = (Some (item_producer producer), rest) ->
  mlt_frame_get_audio w rest params = (error, raw, frame', w') ->
  w' !! producer = Some self ->
  int_range (frequency raw) ->
  let SPEED := property_table_get_double (properties self) "speed" in
  let scaled := double_to_int (double_mul (int_to_double (frequency raw)) (fabs SPEED)) in
  (forall rate, scaled = Some rate ->
     exists out, producer_get_audio w frame params = Some (error, out, frame', w') /\
                 frequency out = rate) /\
  (scaled = None -> producer_get_audio w frame params = None) /\
  (is_zero SPEED = true ->
     exists out, producer_get_audio w frame params = Some (error, out, frame', w') /\
                 frequency out = 0).
Proof.
  intros Hpop Hup Hself Hrate SPEED scaled.
  rewrite (producer_get_audio_transform _ _ _ _ _ _ _ _ _ _ Hpop Hup Hself).
  fold SPEED. unfold speed_audio_transform. fold scaled.
  assert (Hzero : is_zero SPEED = true -> scaled = Some 0)
    by (intros Hz; now apply scale_by_zero).
  destruct scaled as [r|]; cbn; (split; [|split]).
  - intros rate [= <-]. eauto.
  - discriminate.
  - intros Hz. injection (Hzero Hz) as ->. eauto.
  - discriminate.
  - reflexivity.
  - intros Hz. discriminate (Hzero Hz).
Qed.

(** C3.  The audio step hands out the samples of the raw audio in reverse
    temporal order, sample groups kept whole, when the speed is strictly
    negative ([SPEED < 0.0]), and in their own order otherwise. *)
Theorem producer_get_audio_reverses_iff_negative
    w frame params producer rest error raw frame' w' self rate :
  mlt_frame_pop_audio frame = (Some (item_producer producer), rest) ->
  mlt_frame_get_audio w rest params = (error, raw, frame', w') ->
  w' !! producer = Some self ->
  let SPEED := property_table_get_double (properties self) "speed" in
  double_to_int (double_mul (int_to_double (frequency raw)) (fabs SPEED)) = Some rate ->
  exists out,
    producer_get_audio w frame params = Some (error, out, frame', w') /\
    (double_lt SPEED double_zero = true -> data out = rev (data raw)) /\
    (double_lt SPEED double_zero = false -> data out = data raw).
Proof.
  intros Hpop Hup Hself SPEED Hrate.
  rewrite (producer_get_audio_transform _ _ _ _ _ _ _ _ _ _ Hpop Hup Hself).
  fold SPEED. unfold speed_audio_transform. rewrite Hrate. cbn.
  eexists. split; [reflexivity|]. cbn.
  split; intros ->; reflexivity.
Qed.

(** C9.  The buffer the audio step returns has the channel count and the
    sample format (and the sample count) of the raw audio. *)
Theorem producer_get_audio_keeps_channels_format
    w frame params producer rest error raw frame' w' self rate :
  mlt_frame_pop_audio frame = (Some (item_producer producer), rest) ->
  mlt_frame_get_audio w rest params = (error, raw, frame', w') ->
  w' !! producer = Some self ->
  let SPEED := property_table_get_double (properties self) "speed" in
  double_to_int (double_mul (int_to_double (frequency raw)) (fabs SPEED)) = Some rate ->
  exists out,
    producer_get_audio w frame params = Some (error, out, frame', w') /\
    channels out = channels raw /\
    format out = format raw /\
    samples out = samples raw.
Proof.
  intros Hpop Hup Hself SPEED Hrate.
  rewrite (producer_get_audio_transform _ _ _ _ _ _ _ _ _ _ Hpop Hup Hself).
  fold SPEED. unfold speed_audio_transform. rewrite Hrate. cbn.
  eexists. split; [reflexivity|]. cbn. auto.
Qed.

(** C10.  When the raw retrieval reports a failure, the audio step still
    scales the rate and, for a negative speed, reverses the samples of
    whatever that retrieval left, hands these values to the caller, and
    returns the failure status. *)
Theorem producer_get_audio_transforms_on_error
    w frame params producer rest error raw frame' w' self rate :
  mlt_frame_pop_audio frame = (Some (item_producer producer), rest) ->
  mlt_frame_get_audio w rest params = (error, raw, frame', w') ->
  w' !! producer = Some self ->
  error <> 0 ->
  let SPEED := property_table_get_double (properties self) "speed" in
  double_to_int (double_mul (int_to_double (frequency raw)) (fabs SPEED)) = Some rate ->
  producer_get_audio w frame params =
    Some (error,
          {| data := if double_lt SPEED double_zero then rev (data raw) else data raw;
             frequency := rate;
             format := format raw;
             samples := samples raw;
             channels := channels raw |},
          frame', w').
Proof.
  intros Hpop Hup Hself _ SPEED Hrate.
  rewrite (producer_get_audio_transform _ _ _ _ _ _ _ _ _ _ Hpop Hup Hself).
  fold SPEED. unfold speed_audio_transform. rewrite Hrate. reflexivity.
Qed.

End AudioStep.

(** ** Frame production and seek *)

Lemma double_to_int_range d z : double_to_int d = Some z -> int_range z.
Proof.
  destruct d as [s|s| |s m e]; cbn; try discriminate.
  - intros [= <-]. int_lia.
  - destruct (in_int_range (truncate s m e)) eqn:Hr; [|discriminate].
    intros [= <-]. now apply in_int_range_spec.
Qed.

(** What is read as an [int] is an [int]. *)
Lemma property_table_get_int_range (t : property_table) name z :
  property_table_get_int t name = Some z -> int_range z.
Proof.
  unfold property_table_get_int.
  destruct (t !! name) as [[i|d]|].
  - intros [= <-]. apply to_int_range.
  - apply double_to_int_range.
  - intros [= <-]. int_lia.
Qed.

Lemma restrict_range_int index min max r :
  restrict_range index min max = Some r -> int_range r.
Proof.
  unfold restrict_range. destruct (int_rem _ _); cbn; [|discriminate].
  intros [= <-]. apply to_int_range.
Qed.

(** Behind the validity check the restriction always has a result: the
    divisor cannot be zero. *)
Lemma restrict_range_defined index min max :
  int_range min -> int_range max ->
  truthy (is_valid_range min max) = true ->
  exists r, restrict_range index min max = Some r.
Proof.
  intros Hmin Hmax Hv. apply is_valid_range_true in Hv.
  unfold restrict_range, int_sub. rewrite (to_int_id (max - min)) by int_lia.
  assert (Hd : int_add (max - min) 1 = max - min + 1 \/ int_add (max - min) 1 = INT_MIN).
  { unfold int_add. destruct (Z.eq_dec (max - min) INT_MAX) as [-> | Hne].
    - right. reflexivity.
    - left. apply to_int_id. int_lia. }
  unfold int_rem.
  destruct Hd as [-> | ->].
  - destruct (Z.eqb_spec (max - min + 1) 0); [lia|].
    destruct (Z.eqb_spec (max - min + 1) (-1)); [lia|].
    rewrite andb_false_r. cbn. eauto.
  - change (INT_MIN =? 0) with false. change (INT_MIN =? -1) with false.
    rewrite andb_false_r. cbn. eauto.
Qed.

Section FrameSource.
Context `{framework : mlt_framework}.

(** What [producer_get_frame] does once its reads have succeeded: remap,
    delegate, attach. *)
Lemma producer_get_frame_steps
    w producer index self pdata FRAME_START FRAME_END limit_enabled POSITION :
  w !! producer = Some self ->
  child self = Some pdata ->
  property_table_get_int (properties self) "start_frame" = Some FRAME_START ->
  property_table_get_int (properties self) "end_frame" = Some FRAME_END ->
  property_table_get_int (properties self) "limit_enabled" = Some limit_enabled ->
  mlt_producer_position w (producer_internal pdata) = Some POSITION ->
  producer_get_frame w producer index =
    w1 ← remap_position w (producer_internal pdata) (truthy limit_enabled)
                        FRAME_START FRAME_END POSITION;
    let '(retval, frame, w2) := mlt_service_get_frame w1 (producer_internal pdata) index in
    frame ← attach_audio_step producer frame;
    Some (retval, frame, w2).
Proof.
  intros Hself Hchild Hs He Hl Hpos.
  unfold producer_get_frame, mlt_properties_get_int, MLT_PRODUCER_PROPERTIES.
  rewrite Hself. cbn [mbind option_bind].
  rewrite Hs, He, Hl. cbn [mbind option_bind].
  rewrite Hchild. cbn [mbind option_bind].
  rewrite Hpos. reflexivity.
Qed.

(** A result of [producer_get_frame] comes from a delegated retrieval. *)
Lemma producer_get_frame_inv w producer index retval frame w2 :
  producer_get_frame w producer index = Some (retval, frame, w2) ->
  exists self pdata w1 frame0,
    w !! producer = Some self /\
    child self = Some pdata /\
    mlt_service_get_frame w1 (producer_internal pdata) index = (retval, frame0, w2) /\
    attach_audio_step producer frame0 = Some frame.
Proof.
  unfold producer_get_frame, mlt_properties_get_int, MLT_PRODUCER_PROPERTIES.
  destruct (w !! producer) as [self|] eqn:Hself; [|discriminate].
  cbn [mbind option_bind].
  destruct (property_table_get_int _ "start_frame"); [|discriminate].
  destruct (property_table_get_int _ "end_frame"); [|discriminate].
  destruct (property_table_get_int _ "limit_enabled"); [|discriminate].
  cbn [mbind option_bind].
  destruct (child self) as [pdata|] eqn:Hchild; [|discriminate].
  cbn [mbind option_bind].
  destruct (mlt_producer_position _ _); [|discriminate]. cbn [mbind option_bind].
  destruct (remap_position _ _ _ _ _ _) as [w1|]; [|discriminate].
  cbn [mbind option_bind].
  destruct (mlt_service_get_frame w1 _ index) as [[retval' frame0] w2'] eqn:Hget.
  destruct (attach_audio_step producer frame0) as [frame1|] eqn:Hatt; [|discriminate].
  cbn [mbind option_bind]. intros [= <- <- <-].
  exists self, pdata, w1, frame0. auto.
Qed.

Lemma attach_audio_step_cases producer frame0 flag :
  mlt_frame_is_test_audio frame0 = Some flag ->
  attach_audio_step producer frame0 =
    Some (if truthy flag then frame0
          else mlt_frame_push_audio (mlt_frame_push_audio frame0 (item_producer producer))
                                    (item_get_audio fn_producer_get_audio)).
Proof.
  intros Hflag. unfold attach_audio_step. rewrite Hflag. cbn.
  destruct (truthy flag); reflexivity.
Qed.

(** Attaching steps does not touch the frame's properties. *)
Lemma attach_audio_step_test_audio producer frame0 frame :
  attach_audio_step producer frame0 = Some frame ->
  mlt_frame_is_test_audio frame = mlt_frame_is_test_audio frame0.
Proof.
  unfold attach_audio_step.
  destruct (mlt_frame_is_test_audio frame0) as [flag|] eqn:Hflag; [|discriminate].
  cbn. intros [= <-]. destruct (truthy flag); cbn; rewrite <- Hflag; reflexivity.
Qed.

Lemma mlt_frame_pop_push frame item :
  mlt_frame_pop_audio (mlt_frame_push_audio frame item) = (Some item, frame).
Proof. destruct frame; reflexivity. Qed.

(** C5.  With the restriction enabled and the range valid, the frame is
    requested from the inner producer in a store where its position is
    [restrict_range] of the position it had; in every other case the frame is
    requested in the very store [producer_get_frame] was called in. *)
Theorem producer_get_frame_remaps_position
    w producer index self pdata FRAME_START FRAME_END limit_enabled inner POSITION :
  w !! producer = Some self ->
  child self = Some pdata ->
  property_table_get_int (properties self) "start_frame" = Some FRAME_START ->
  property_table_get_int (properties self) "end_frame" = Some FRAME_END ->
  property_table_get_int (properties self) "limit_enabled" = Some limit_enabled ->
  w !! producer_internal pdata = Some inner ->
  property_table_get_int (properties inner) "_position" = Some POSITION ->
  let delegate w1 :=
    let '(retval, frame, w2) := mlt_service_get_frame w1 (producer_internal pdata) index in
    frame ← attach_audio_step producer frame;
    Some (retval, frame, w2) in
  (truthy limit_enabled = true ->
   truthy (is_valid_range FRAME_START FRAME_END) = true ->
   exists restricted w1,
     restrict_range POSITION FRAME_START FRAME_END = Some restricted /\
     w1 = <[producer_internal pdata :=
              {| properties := <["_position" := prop_int restricted]> (properties inner);
                 child := child inner |}]> w /\
     mlt_producer_position w1 (producer_internal pdata) = Some restricted /\
     producer_get_frame w producer index = delegate w1) /\
  (truthy limit_enabled = false \/
   truthy (is_valid_range FRAME_START FRAME_END) = false ->
   producer_get_frame w producer index = delegate w).
Proof.
  intros Hself Hchild Hs He Hl Hinner Hpos delegate.
  assert (Hposition : mlt_producer_position w (producer_internal pdata) = Some POSITION).
  { unfold mlt_producer_position, mlt_properties_get_int, MLT_PRODUCER_PROPERTIES.
    rewrite Hinner. exact Hpos. }
  rewrite (producer_get_frame_steps _ _ _ _ _ _ _ _ _ Hself Hchild Hs He Hl Hposition).
  unfold remap_position. split.
  - intros -> Hvalid. rewrite Hvalid. cbn [andb].
    destruct (restrict_range_defined POSITION FRAME_START FRAME_END) as [restricted Hr];
      eauto using property_table_get_int_range.
    rewrite Hr. cbn [mbind option_bind].
    unfold mlt_properties_set_position, MLT_PRODUCER_PROPERTIES.
    rewrite Hinner. cbn [mbind option_bind].
    eexists restricted, _. split; [reflexivity|]. split; [reflexivity|].
    split; [|reflexivity].
    unfold mlt_producer_position, mlt_properties_get_int, MLT_PRODUCER_PROPERTIES.
    rewrite lookup_insert_eq. cbn [mbind option_bind properties].
    unfold property_table_get_int. rewrite lookup_insert_eq.
    f_equal. apply to_int_id. eapply restrict_range_int; eassumption.
  - intros [-> | ->]; [|rewrite andb_false_r]; reflexivity.
Qed.

(** C7.  The frame [producer_get_frame] hands out is the inner producer's
    frame with the audio step attached on top when that frame is not test
    audio, and is the inner producer's frame itself when it is: requesting
    the audio of such a frame is requesting the audio of the inner
    producer's frame, in any store and so at any speed. *)
Theorem producer_get_frame_attaches_unless_test_audio
    w producer index self pdata FRAME_START FRAME_END limit_enabled POSITION
    w1 retval frame0 w2 flag :
  w !! producer = Some self ->
  child self = Some pdata ->
  property_table_get_int (properties self) "start_frame" = Some FRAME_START ->
  property_table_get_int (properties self) "end_frame" = Some FRAME_END ->
  property_table_get_int (properties self) "limit_enabled" = Some limit_enabled ->
  mlt_producer_position w (producer_internal pdata) = Some POSITION ->
  remap_position w (producer_internal pdata) (truthy limit_enabled)
                 FRAME_START FRAME_END POSITION = Some w1 ->
  mlt_service_get_frame w1 (producer_internal pdata) index = (retval, frame0, w2) ->
  mlt_frame_is_test_audio frame0 = Some flag ->
  exists frame,
    producer_get_frame w producer index = Some (retval, frame, w2) /\
    (truthy flag = false ->
       frame = mlt_frame_push_audio (mlt_frame_push_audio frame0 (item_producer producer))
                                    (item_get_audio fn_producer_get_audio) /\
       mlt_frame_pop_audio frame =
         (Some (item_get_audio fn_producer_get_audio),
          mlt_frame_push_audio frame0 (item_producer producer))) /\
    (truthy flag = true ->
       frame = frame0 /\
       forall w3 params,
         frame_request_audio w3 frame params = frame_request_audio w3 frame0 params).
Proof.
  intros Hself Hchild Hs He Hl Hposition Hremap Hget Hflag.
  rewrite (producer_get_frame_steps _ _ _ _ _ _ _ _ _ Hself Hchild Hs He Hl Hposition).
  rewrite Hremap. cbn [mbind option_bind]. rewrite Hget.
  rewrite (attach_audio_step_cases _ _ _ Hflag). cbn [mbind option_bind].
  eexists. split; [reflexivity|].
  split; intros ->; split; reflexivity.
Qed.

(** C8.  The status [producer_get_frame] returns is the status of the
    delegated frame retrieval, and [producer_seek] returns what the inner
    producer's seek returns, status and store. *)
Theorem producer_status_is_inner_status
    w producer index position self pdata FRAME_START FRAME_END limit_enabled POSITION
    w1 retval frame0 w2 flag :
  w !! producer = Some self ->
  child self = Some pdata ->
  property_table_get_int (properties self) "start_frame" = Some FRAME_START ->
  property_table_get_int (properties self) "end_frame" = Some FRAME_END ->
  property_table_get_int (properties self) "limit_enabled" = Some limit_enabled ->
  mlt_producer_position w (producer_internal pdata) = Some POSITION ->
  remap_position w (producer_internal pdata) (truthy limit_enabled)
                 FRAME_START FRAME_END POSITION = Some w1 ->
  mlt_service_get_frame w1 (producer_internal pdata) index = (retval, frame0, w2) ->
  mlt_frame_is_test_audio frame0 = Some flag ->
  (exists frame, producer_get_frame w producer index = Some (retval, frame, w2)) /\
  producer_seek w producer position =
    Some (mlt_producer_seek w (producer_internal pdata) position).
Proof.
  intros Hself Hchild Hs He Hl Hposition Hremap Hget Hflag. split.
  - rewrite (producer_get_frame_steps _ _ _ _ _ _ _ _ _ Hself Hchild Hs He Hl Hposition).
    rewrite Hremap. cbn [mbind option_bind]. rewrite Hget.
    rewrite (attach_audio_step_cases _ _ _ Hflag). cbn [mbind option_bind]. eauto.
  - unfold producer_seek. rewrite Hself. cbn [mbind option_bind].
    rewrite Hchild. reflexivity.
Qed.

(** C6.  When the audio of a frame that [producer_get_frame] produced with
    the step attached is requested, in whatever store there is by then, the
    step transforms the raw audio at the speed the producer has in the store
    of that moment (as the raw retrieval left it): the store in which the
    frame was produced plays no part.  In particular, after the speed has
    been set to a new value the audio is rendered at the new value. *)
Theorem render_reads_speed_at_render_time w producer index retval frame w1 flag :
  producer_get_frame w producer index = Some (retval, frame, w1) ->
  mlt_frame_is_test_audio frame = Some flag ->
  truthy flag = false ->
  exists frame0,
    frame = mlt_frame_push_audio (mlt_frame_push_audio frame0 (item_producer producer))
                                 (item_get_audio fn_producer_get_audio) /\
    (forall w2 params error raw frame' w3 self,
        mlt_frame_get_audio w2 frame0 params = (error, raw, frame', w3) ->
        w3 !! producer = Some self ->
        frame_request_audio w2 frame params =
          out ← speed_audio_transform
                  (property_table_get_double (properties self) "speed") raw;
          Some (error, out, frame', w3)) /\
    (forall later speed w2 params error raw frame' w3,
        mlt_properties_set_double later (MLT_PRODUCER_PROPERTIES producer) "speed" speed
          = Some w2 ->
        mlt_frame_get_audio w2 frame0 params = (error, raw, frame', w3) ->
        w3 !! producer = w2 !! producer ->
        frame_request_audio w2 frame params =
          out ← speed_audio_transform speed raw;
          Some (error, out, frame', w3)).
Proof.
  intros Hget Hflag Hreal.
  destruct (producer_get_frame_inv _ _ _ _ _ _ Hget)
    as (self0 & pdata & w0 & frame0 & _ & _ & _ & Hatt).
  pose proof (attach_audio_step_test_audio _ _ _ Hatt) as Hsame.
  rewrite Hflag in Hsame. symmetry in Hsame.
  rewrite (attach_audio_step_cases _ _ _ Hsame), Hreal in Hatt.
  injection Hatt as <-.
  exists frame0. split; [reflexivity|].
  assert (Hgeneral : forall w2 params error raw frame' w3 self,
             mlt_frame_get_audio w2 frame0 params = (error, raw, frame', w3) ->
             w3 !! producer = Some self ->
             frame_request_audio w2
               (mlt_frame_push_audio (mlt_frame_push_audio frame0 (item_producer producer))
                                     (item_get_audio fn_producer_get_audio)) params =
               out ← speed_audio_transform
                       (property_table_get_double (properties self) "speed") raw;
               Some (error, out, frame', w3)).
  { intros w2 params error raw frame' w3 self Hup Hself.
    unfold frame_request_audio. rewrite mlt_frame_pop_push.
    eapply producer_get_audio_transform; eauto using mlt_frame_pop_push. }
  split; [exact Hgeneral|].
  intros later speed w2 params error raw frame' w3 Hset Hup Hkept.
  unfold mlt_properties_set_double, MLT_PRODUCER_PROPERTIES in Hset.
  destruct (later !! producer) as [o|]; [|discriminate].
  cbn [mbind option_bind] in Hset. injection Hset as <-.
  rewrite lookup_insert_eq in Hkept.
  rewrite (Hgeneral _ _ _ _ _ _ _ Hup Hkept). cbn [properties].
  unfold property_table_get_double. rewrite lookup_insert_eq. reflexivity.
Qed.

End FrameSource.

(** ** The theorems on concrete inputs *)

(** A frame on which the audio step is about to run: the producer at
    handle 1 on top of what the inner producer left. *)
Lemma demo_pop :
  mlt_frame_pop_audio (mlt_frame_push_audio (demo_frame 0) (item_producer 1))
  = (Some (item_producer 1), demo_frame 0).
Proof. reflexivity. Qed.

(** 48000 Hz at speed 2.0 is handed out as 96000 Hz, and at speed 0.0 as
    0 Hz, with the status 0 of the raw retrieval. *)
Lemma producer_get_audio_scales_rate_witness :
  let framework := fixed_framework 0 demo_audio (demo_frame 0) in
  let frame := mlt_frame_push_audio (demo_frame 0) (item_producer 1) in
  (exists out,
      producer_get_audio (demo_store (int_to_double 2) 1 25) frame demo_params
      = Some (0, out, demo_frame 0, demo_store (int_to_double 2) 1 25) /\
      frequency out = 96000) /\
  (exists out,
      producer_get_audio (demo_store double_zero 1 25) frame demo_params
      = Some (0, out, demo_frame 0, demo_store double_zero 1 25) /\
      frequency out = 0).
Proof.
  intros framework frame. split.
  - apply (proj1 (producer_get_audio_scales_rate (framework := framework)
             (demo_store (int_to_double 2) 1 25) frame demo_params 1%positive
             (demo_frame 0) 0 demo_audio (demo_frame 0)
             (demo_store (int_to_double 2) 1 25)
             (demo_producer (int_to_double 2) 1)
             demo_pop eq_refl eq_refl ltac:(cbn; int_lia))).
    reflexivity.
  - apply (proj2 (proj2 (producer_get_audio_scales_rate (framework := framework)
             (demo_store double_zero 1 25) frame demo_params 1%positive
             (demo_frame 0) 0 demo_audio (demo_frame 0)
             (demo_store double_zero 1 25)
             (demo_producer double_zero 1)
             demo_pop eq_refl eq_refl ltac:(cbn; int_lia)))).
    reflexivity.
Defined.

(** At speed -1.0 the three sample groups come out last first, at the
    rate they had. *)
Lemma producer_get_audio_reverses_iff_negative_witness :
  let framework := fixed_framework 0 demo_audio (demo_frame 0) in
  let frame := mlt_frame_push_audio (demo_frame 0) (item_producer 1) in
  let w := demo_store (int_to_double (-1)) 1 25 in
  double_lt (int_to_double (-1)) double_zero = true /\
  rev (data demo_audio) = [[5; 6]; [3; 4]; [1; 2]] /\
  exists out,
    producer_get_audio w frame demo_params = Some (0, out, demo_frame 0, w) /\
    (double_lt (int_to_double (-1)) double_zero = true -> data out = rev (data demo_audio)) /\
    (double_lt (int_to_double (-1)) double_zero = false -> data out = data demo_audio).
Proof.
  intros framework frame w. split; [reflexivity|]. split; [reflexivity|].
  apply (producer_get_audio_reverses_iff_negative (framework := framework)
           w frame demo_params 1%positive (demo_frame 0) 0 demo_audio (demo_frame 0) w
           (demo_producer (int_to_double (-1)) 1) 48000
           demo_pop eq_refl eq_refl eq_refl).
Defined.

(** Two channels of 16-bit samples stay two channels of 16-bit samples. *)
Lemma producer_get_audio_keeps_channels_format_witness :
  let framework := fixed_framework 0 demo_audio (demo_frame 0) in
  let frame := mlt_frame_push_audio (demo_frame 0) (item_producer 1) in
  let w := demo_store (int_to_double (-2)) 1 25 in
  exists out,
    producer_get_audio w frame demo_params = Some (0, out, demo_frame 0, w) /\
    channels out = 2 /\ format out = mlt_audio_s16 /\ samples out = 3.
Proof.
  intros framework frame w.
  apply (producer_get_audio_keeps_channels_format (framework := framework)
           w frame demo_params 1%positive (demo_frame 0) 0 demo_audio (demo_frame 0) w
           (demo_producer (int_to_double (-2)) 1) 96000
           demo_pop eq_refl eq_refl eq_refl).
Defined.

(** A raw retrieval that fails with status 1: the caller asked at 44100 Hz
    with an empty buffer and gets the failure together with the reversed
    samples at 96000 Hz. *)
Lemma producer_get_audio_transforms_on_error_witness :
  let framework := fixed_framework 1 demo_audio (demo_frame 0) in
  let frame := mlt_frame_push_audio (demo_frame 0) (item_producer 1) in
  let w := demo_store (int_to_double (-2)) 1 25 in
  producer_get_audio w frame demo_params =
    Some (1,
          {| data := [[5; 6]; [3; 4]; [1; 2]]; frequency := 96000;
             format := mlt_audio_s16; samples := 3; channels := 2 |},
          demo_frame 0, w).
Proof.
  intros framework frame w.
  apply (producer_get_audio_transforms_on_error (framework := framework)
           w frame demo_params 1%positive (demo_frame 0) 1 demo_audio (demo_frame 0) w
           (demo_producer (int_to_double (-2)) 1) 96000
           demo_pop eq_refl eq_refl ltac:(discriminate) eq_refl).
Defined.

(** The inner producer stands at 25 and the range is 10 to 20: with the
    restriction enabled the frame is requested at position 14, with the
    restriction disabled at position 25. *)
Lemma producer_get_frame_remaps_position_witness :
  let framework := fixed_framework 0 demo_audio (demo_frame 0) in
  let attached :=
    mlt_frame_push_audio (mlt_frame_push_audio (demo_frame 0) (item_producer 1))
                         (item_get_audio fn_producer_get_audio) in
  producer_get_frame (demo_store double_zero 1 25) 1 7
    = Some (0, attached, demo_store double_zero 1 14) /\
  producer_get_frame (demo_store double_zero 0 25) 1 7
    = Some (0, attached, demo_store double_zero 0 25).
Proof.
  intros framework attached. split.
  - destruct (proj1 (producer_get_frame_remaps_position (framework := framework)
                (demo_store double_zero 1 25) 1%positive 7
                (demo_producer double_zero 1) {| producer_internal := 2 |}
                10 20 1 (demo_inner 25) 25
                eq_refl eq_refl eq_refl eq_refl eq_refl eq_refl eq_refl)
              eq_refl eq_refl)
      as (restricted & w1 & Hrestricted & Hw1 & _ & Hget).
    injection Hrestricted as <-. rewrite Hget, Hw1. reflexivity.
  - refine (eq_trans
              (proj2 (producer_get_frame_remaps_position (framework := framework)
                        (demo_store double_zero 0 25) 1%positive 7
                        (demo_producer double_zero 0) {| producer_internal := 2 |}
                        10 20 0 (demo_inner 25) 25
                        eq_refl eq_refl eq_refl eq_refl eq_refl eq_refl eq_refl)
                     (or_introl eq_refl)) _).
    reflexivity.
Defined.

(** A frame that is not test audio gains the step; a test audio frame is
    handed out as the inner producer made it. *)
Lemma producer_get_frame_attaches_unless_test_audio_witness :
  (let framework := fixed_framework 0 demo_audio (demo_frame 0) in
   exists frame,
     producer_get_frame (demo_store double_zero 1 25) 1 7
       = Some (0, frame, demo_store double_zero 1 14) /\
     stack_audio frame =
       [item_get_audio fn_producer_get_audio; item_producer 1;
        item_get_audio (fn_foreign 0)]) /\
  (let framework := fixed_framework 0 demo_audio (demo_frame 1) in
   exists frame,
     producer_get_frame (demo_store double_zero 1 25) 1 7
       = Some (0, frame, demo_store double_zero 1 14) /\
     frame = demo_frame 1).
Proof.
  split; intros framework.
  - destruct (producer_get_frame_attaches_unless_test_audio (framework := framework)
                (demo_store double_zero 1 25) 1%positive 7
                (demo_producer double_zero 1) {| producer_internal := 2 |}
                10 20 1 25 (demo_store double_zero 1 14) 0 (demo_frame 0)
                (demo_store double_zero 1 14) 0
                eq_refl eq_refl eq_refl eq_refl eq_refl eq_refl eq_refl eq_refl eq_refl)
      as (frame & Hget & Hreal & _).
    exists frame. split; [exact Hget|].
    destruct (Hreal eq_refl) as [-> _]. reflexivity.
  - destruct (producer_get_frame_attaches_unless_test_audio (framework := framework)
                (demo_store double_zero 1 25) 1%positive 7
                (demo_producer double_zero 1) {| producer_internal := 2 |}
                10 20 1 25 (demo_store double_zero 1 14) 0 (demo_frame 1)
                (demo_store double_zero 1 14) 1
                eq_refl eq_refl eq_refl eq_refl eq_refl eq_refl eq_refl eq_refl eq_refl)
      as (frame & Hget & _ & Htest).
    exists frame. split; [exact Hget|].
    destruct (Htest eq_refl) as [-> _]. reflexivity.
Defined.

(** An inner producer that answers with the status 7: frame retrieval and
    seek both return 7. *)
Lemma producer_status_is_inner_status_witness :
  let framework := fixed_framework 7 demo_audio (demo_frame 0) in
  (exists frame,
      producer_get_frame (demo_store double_zero 1 25) 1 3
      = Some (7, frame, demo_store double_zero 1 14)) /\
  producer_seek (demo_store double_zero 1 25) 1 40
  = Some (7, demo_store double_zero 1 25).
Proof.
  intros framework.
  apply (producer_status_is_inner_status (framework := framework)
           (demo_store double_zero 1 25) 1%positive 3 40
           (demo_producer double_zero 1) {| producer_internal := 2 |}
           10 20 1 25 (demo_store double_zero 1 14) 7 (demo_frame 0)
           (demo_store double_zero 1 14) 0
           eq_refl eq_refl eq_refl eq_refl eq_refl eq_refl eq_refl eq_refl eq_refl).
Defined.

(** A frame produced at speed 1.0 and rendered after the speed was set to
    2.0 comes out at 96000 Hz, not at 48000 Hz. *)
Lemma render_reads_speed_at_render_time_witness :
  let framework := fixed_framework 0 demo_audio (demo_frame 0) in
  let frame :=
    mlt_frame_push_audio (mlt_frame_push_audio (demo_frame 0) (item_producer 1))
                         (item_get_audio fn_producer_get_audio) in
  let produced := demo_store (int_to_double 1) 0 25 in
  let changed := demo_store (int_to_double 2) 0 25 in
  producer_get_frame produced 1 7 = Some (0, frame, produced) /\
  mlt_properties_set_double produced 1 "speed" (int_to_double 2) = Some changed /\
  exists frame0,
    frame_request_audio changed frame demo_params
    = Some (0,
            {| data := [[1; 2]; [3; 4]; [5; 6]]; frequency := 96000;
               format := mlt_audio_s16; samples := 3; channels := 2 |},
            frame0, changed).
Proof.
  intros framework frame produced changed.
  split; [reflexivity|]. split; [reflexivity|].
  destruct (render_reads_speed_at_render_time (framework := framework)
              produced 1%positive 7 0 frame produced 0
              eq_refl eq_refl eq_refl)
    as (frame0 & _ & _ & Hrender).
  exists frame0.
  rewrite (Hrender produced (int_to_double 2) changed demo_params 0 demo_audio frame0
             changed eq_refl eq_refl eq_refl).
  reflexivity.
Defined.

(** * Further properties of the code *)

(** ** Range restriction *)

(** The offset that is divided is an [int] that is not negative. *)
Lemma restrict_offset_range index min :
  0 <= MAX (int_sub index min) 0 <= INT_MAX.
Proof.
  rewrite MAX_max. unfold int_sub.
  pose proof (to_int_range (index - min)). int_lia.
Qed.

(** Whatever the index, also one for which [index - min] overflows, the
    restriction to a range with [max > min] whose span fits an [int] has a
    result between [min] and [max]. *)
Lemma restrict_range_bounds index min max :
  int_range min -> int_range max -> max > min -> int_range (max - min) ->
  exists r, restrict_range index min max = Some r /\ min <= r <= max.
Proof.
  intros Hmin Hmax Hlt Hs.
  unfold restrict_range.
  pose proof (restrict_offset_range index min) as Hoff.
  revert Hoff. generalize (MAX (int_sub index min) 0). intros off Hoff.
  unfold int_sub. rewrite (to_int_id (max - min)) by assumption.
  unfold int_add.
  destruct (Z.eq_dec (max - min) INT_MAX) as [Hfull | Hpart].
  - rewrite Hfull. change (to_int (INT_MAX + 1)) with INT_MIN.
    unfold int_rem. change (INT_MIN =? 0) with false.
    change (INT_MIN =? -1) with false. rewrite andb_false_r.
    cbn [mbind option_bind]. rewrite rem_nonneg_abs by int_lia.
    change (Z.abs INT_MIN) with (INT_MAX + 1).
    rewrite Z.mod_small by lia.
    rewrite to_int_id by int_lia. eexists. split; [reflexivity | lia].
  - rewrite (to_int_id (max - min + 1)) by int_lia.
    unfold int_rem.
    destruct (Z.eqb_spec (max - min + 1) 0) as [?|_]; [lia|].
    destruct (Z.eqb_spec (max - min + 1) (-1)) as [?|_]; [lia|].
    rewrite andb_false_r. cbn [mbind option_bind].
    rewrite Z.rem_mod_nonneg by lia.
    pose proof (Z.mod_pos_bound off (max - min + 1)).
    rewrite to_int_id by int_lia. eexists. split; [reflexivity | lia].
Qed.

(** An index inside the range is left where it is. *)
Lemma restrict_range_fixed index min max :
  int_range min -> int_range max -> int_range (max - min) ->
  min <= index <= max -> max > min ->
  restrict_range index min max = Some index.
Proof.
  intros Hmin Hmax Hs Hin Hlt.
  rewrite restrict_range_exact by (try assumption; int_lia).
  unfold restrict_spec. rewrite Z.max_l by lia.
  rewrite Z.mod_small by lia. f_equal. lia.
Qed.

(** X1.  Behind the validity check the restriction has a result for every
    index, also one for which [index - min] overflows, and the result lies in
    the range: it is a frame from [min] to [max]. *)
Theorem restrict_range_within_bounds index min max :
  int_range min -> int_range max ->
  truthy (is_valid_range min max) = true ->
  exists r, restrict_range index min max = Some r /\ min <= r <= max.
Proof.
  intros Hmin Hmax Hvalid. apply is_valid_range_true in Hvalid.
  apply restrict_range_bounds; try assumption; int_lia.
Qed.

Lemma restrict_range_within_bounds_witness :
  exists r, restrict_range INT_MIN 10 20 = Some r /\ 10 <= r <= 20.
Proof.
  apply (restrict_range_within_bounds INT_MIN 10 20); (reflexivity || int_lia).
Defined.

(** X2.  Behind the validity check an index inside the range is left where
    it is, and restricting twice is restricting once: a restricted index is
    a fixed point, whatever index it came from. *)
Theorem restrict_range_idempotent index min max :
  int_range min -> int_range max ->
  truthy (is_valid_range min max) = true ->
  (min <= index <= max -> restrict_range index min max = Some index) /\
  (forall r, restrict_range index min max = Some r ->
             restrict_range r min max = Some r).
Proof.
  intros Hmin Hmax Hvalid. apply is_valid_range_true in Hvalid.
  assert (Hspan : int_range (max - min)) by int_lia.
  split.
  - intros Hin. apply restrict_range_fixed; (assumption || lia).
  - intros r Hr.
    destruct (restrict_range_bounds index min max) as (r' & Hr' & Hbounds);
      try assumption; try lia.
    rewrite Hr in Hr'. injection Hr' as <-.
    apply restrict_range_fixed; (assumption || lia).
Qed.

Lemma restrict_range_idempotent_witness :
  restrict_range 17 10 20 = Some 17 /\
  restrict_range 25 10 20 = Some 14 /\ restrict_range 14 10 20 = Some 14.
Proof.
  split; [|split].
  - apply (proj1 (restrict_range_idempotent 17 10 20
                    ltac:(int_lia) ltac:(int_lia) eq_refl)). lia.
  - reflexivity.
  - apply (proj2 (restrict_range_idempotent 25 10 20
                    ltac:(int_lia) ltac:(int_lia) eq_refl) 14). reflexivity.
Defined.

(** X3.  Stepping through the range loops: in a range that starts at a
    non-negative frame and ends before [INT_MAX], the index after one inside
    the range is restricted to itself, and the index after [max] to [min]. *)
Theorem restrict_range_successor index min max :
  0 <= min -> max < INT_MAX -> max > min -> min <= index <= max ->
  restrict_range (index + 1) min max =
    Some (if index =? max then min else index + 1).
Proof.
  intros Hmin Hmax Hlt Hin.
  rewrite restrict_range_exact by int_lia.
  unfold restrict_spec. rewrite Z.max_l by lia. f_equal.
  destruct (Z.eqb_spec index max) as [-> | Hne].
  - replace (max + 1 - min) with (max - min + 1) by lia.
    rewrite Z.mod_same by lia. lia.
  - rewrite Z.mod_small by lia. lia.
Qed.

Lemma restrict_range_successor_witness :
  restrict_range (20 + 1) 10 20 = Some 10 /\ restrict_range (13 + 1) 10 20 = Some 14.
Proof.
  split.
  - apply (restrict_range_successor 20 10 20); int_lia.
  - apply (restrict_range_successor 13 10 20); int_lia.
Defined.

(** X4.  At and above [min] the restriction is periodic, with the number of
    frames of the range as its period. *)
Theorem restrict_range_periodic index min max k :
  int_range min -> int_range max -> max > min -> int_range (max - min) ->
  min <= index -> 0 <= k ->
  int_range (index + k * (max - min + 1) - min) ->
  restrict_range (index + k * (max - min + 1)) min max = restrict_range index min max.
Proof.
  intros Hmin Hmax Hlt Hs Hge Hk Hd.
  assert (0 <= k * (max - min + 1)) by nia.
  rewrite !restrict_range_exact by (try assumption; int_lia).
  unfold restrict_spec. rewrite !Z.max_l by lia. do 2 f_equal.
  replace (index + k * (max - min + 1) - min) with (index - min + k * (max - min + 1)) by lia.
  apply Z.mod_add. lia.
Qed.

Lemma restrict_range_periodic_witness :
  restrict_range (12 + 3 * (20 - 10 + 1)) 10 20 = restrict_range 12 10 20.
Proof.
  apply (restrict_range_periodic 12 10 20 3); int_lia.
Defined.

(** X5.  The restriction has no result, the division being by zero, exactly
    for the bounds with [max = min - 1] and for the bounds [INT_MIN],
    [INT_MAX], whatever the index: the validity check, which asks for
    [max > min >= 0], keeps both away. *)
Theorem restrict_range_undefined_iff index min max :
  int_range min -> int_range max ->
  restrict_range index min max = None <->
  max = min - 1 \/ (min = INT_MIN /\ max = INT_MAX).
Proof.
  intros Hmin Hmax.
  unfold restrict_range.
  pose proof (restrict_offset_range index min) as Hoff.
  revert Hoff. generalize (MAX (int_sub index min) 0). intros off Hoff.
  assert (Hdiv : int_add (int_sub max min) 1 = 0 <->
                 max = min - 1 \/ (min = INT_MIN /\ max = INT_MAX)).
  { unfold int_add, int_sub, to_int, int_range, INT_MIN, INT_MAX in *.
    Z.div_mod_to_equations. lia. }
  unfold int_rem.
  destruct (Z.eqb_spec (int_add (int_sub max min) 1) 0) as [Hz | Hnz].
  - cbn. tauto.
  - replace (off =? INT_MIN) with false
      by (symmetry; apply Z.eqb_neq; int_lia).
    cbn. split; [discriminate | tauto].
Qed.

Lemma restrict_range_undefined_iff_witness :
  restrict_range 25 10 9 = None /\ restrict_range 25 INT_MIN INT_MAX = None.
Proof.
  split.
  - apply (restrict_range_undefined_iff 25 10 9); int_lia.
  - apply (restrict_range_undefined_iff 25 INT_MIN INT_MAX); int_lia.
Defined.

(** ** Scaling the rate *)

(** A mantissa shifted left by [n] bits is the mantissa times [2^n]. *)
Lemma iter_xO_value m n : Zpos (Pos.iter xO m n) = Zpos m * 2 ^ Zpos n.
Proof.
  induction n as [|n IH] using Pos.peano_ind.
  - cbn. lia.
  - rewrite Pos.iter_succ, Pos2Z.inj_xO, IH, Pos2Z.inj_succ, Z.pow_succ_r by lia. lia.
Qed.

(** The double of a positive or negative [int]: sign, 53-bit mantissa and
    exponent. *)
Lemma int_to_double_nonzero (s : bool) m :
  Zpos m <= 2147483648 ->
  exists P k,
    int_to_double (if s then Zneg m else Zpos m) = S754_finite s P (Zneg k) /\
    Zpos (digits2_pos P) = 53 /\
    Zpos P = Zpos m * 2 ^ Zpos k /\
    21 <= Zpos k <= 52.
Proof.
  intros Hm. destruct (binary_round_int s m Hm) as (k & Hk & Hround).
  pose proof (digits2_pos_int m Hm).
  exists (Pos.iter xO m k), k. repeat split.
  - destruct s; exact Hround.
  - rewrite digits2_pos_shift. lia.
  - apply iter_xO_value.
  - lia.
  - lia.
Qed.

(** Multiplying a 53-bit mantissa by a power of two is exact: the mantissa
    stays and the exponents add. *)
Lemma double_mul_power_of_two sx P ex sy ey :
  Zpos (digits2_pos P) = 53 ->
  -1074 <= ex + ey + 52 <= 971 ->
  double_mul (S754_finite sx P ex) (S754_finite sy 4503599627370496 ey)
  = S754_finite (xorb sx sy) P (ex + ey + 52).
Proof.
  intros Hdigits Hexp.
  unfold double_mul, SFmul, binary_round_aux, shr_fexp, Zdigits2.
  rewrite Pos.mul_comm.
  change (4503599627370496 * P)%positive with (Pos.iter xO P 52).
  rewrite digits2_pos_shift.
  replace (fexp prec emax (Zpos (digits2_pos P + 52) + (ex + ey)) - (ex + ey)) with 52
    by (unfold fexp, emin, prec, emax; lia).
  cbn -[fexp prec emax digits2_pos Z.add Z.sub Z.leb].
  replace (fexp prec emax (Zpos (digits2_pos P) + (ex + ey + 52)) - (ex + ey + 52)) with 0
    by (unfold fexp, emin, prec, emax; lia).
  cbn -[prec emax Z.add Z.sub Z.leb].
  destruct (Z.leb_spec (ex + ey + 52) (emax - prec)) as [_|Hbad]; [reflexivity|].
  unfold emax, prec in Hbad. lia.
Qed.

(** The integer part of a finite double, as arithmetic. *)
Lemma truncate_value s m e :
  truncate s m e =
    (if s then -1 else 1) * (if 0 <=? e then Zpos m * 2 ^ e else Zpos m / 2 ^ (- e)).
Proof.
  unfold truncate. destruct e as [|k|k]; unfold Z.leb; cbn [Z.compare].
  - rewrite Z.pow_0_r. destruct s; lia.
  - destruct s; lia.
  - change (- Zneg k) with (Zpos k). destruct s; lia.
Qed.

Lemma truncate_scaled s m k P j :
  Zpos P = Zpos m * 2 ^ Zpos k ->
  truncate s P (Zneg k + (j - 52) + 52) =
    scale_power_of_two (if s then Zneg m else Zpos m) j.
Proof.
  intros HP. rewrite truncate_value, HP. unfold scale_power_of_two.
  replace (Zneg k + (j - 52) + 52) with (j - Zpos k) by lia.
  assert (Hmag : (if 0 <=? j - Zpos k
                  then Zpos m * 2 ^ Zpos k * 2 ^ (j - Zpos k)
                  else Zpos m * 2 ^ Zpos k / 2 ^ (- (j - Zpos k)))
                 = if 0 <=? j then Zpos m * 2 ^ j else Zpos m / 2 ^ (- j)).
  { destruct (Z.leb_spec 0 (j - Zpos k)) as [Hge | Hlt].
    - destruct (Z.leb_spec 0 j); [|lia].
      rewrite <- Z.mul_assoc, <- Z.pow_add_r by lia. do 2 f_equal. lia.
    - destruct (Z.leb_spec 0 j) as [Hj | Hj].
      + replace (Zpos k) with (j + (Zpos k - j)) at 1 by lia.
        rewrite Z.pow_add_r by lia.
        replace (- (j - Zpos k)) with (Zpos k - j) by lia.
        rewrite Z.mul_assoc. apply Z.div_mul.
        apply Z.pow_nonzero; lia.
      + replace (- (j - Zpos k)) with (Zpos k + - j) by lia.
        rewrite Z.pow_add_r by lia.
        rewrite (Z.mul_comm (Zpos m)).
        apply Z.div_mul_cancel_l; apply Z.pow_nonzero; lia. }
  rewrite Hmag.
  destruct (Z.leb_spec 0 j) as [Hj | Hj]; destruct s; try lia.
  - change (Zneg m) with (- Zpos m).
    rewrite Z.quot_opp_l by (apply Z.pow_nonzero; lia).
    rewrite Z.quot_div_nonneg by (try apply Z.pow_pos_nonneg; lia). lia.
  - rewrite Z.quot_div_nonneg by (try apply Z.pow_pos_nonneg; lia). lia.
Qed.

(** Scaling an [int] rate by a speed of magnitude [2^j] is exact up to the
    rounding towards zero. *)
Lemma scale_by_power_of_two z s j :
  int_range z -> -1022 <= j <= 992 ->
  double_to_int (double_mul (int_to_double z)
                            (fabs (S754_finite s 4503599627370496 (j - 52)))) =
    if in_int_range (scale_power_of_two z j)
    then Some (scale_power_of_two z j) else None.
Proof.
  intros Hz Hj. cbn [fabs SFabs].
  destruct z as [|m|m].
  - replace (scale_power_of_two 0 j) with 0; [reflexivity|].
    unfold scale_power_of_two. destruct (Z.leb_spec 0 j); [lia|].
    symmetry. apply Z.quot_0_l. apply Z.pow_nonzero; lia.
  - destruct (int_to_double_nonzero false m) as (P & k & -> & Hd & HP & Hk); [int_lia|].
    rewrite double_mul_power_of_two by lia.
    cbn [double_to_int xorb].
    rewrite (truncate_scaled false m k P j HP). reflexivity.
  - destruct (int_to_double_nonzero true m) as (P & k & -> & Hd & HP & Hk); [int_lia|].
    rewrite double_mul_power_of_two by lia.
    cbn [double_to_int xorb].
    rewrite (truncate_scaled true m k P j HP). reflexivity.
Qed.



(** The magnitude of a speed does not depend on its sign. *)
Lemma fabs_opp s : fabs (SFopp s) = fabs s.
Proof. destruct s; reflexivity. Qed.

(** Apart from the zeros and NaN, exactly one of a speed and its opposite
    is below [0.0]. *)
Lemma double_lt_opp s :
  is_zero s = false -> s <> S754_nan ->
  double_lt (SFopp s) double_zero = negb (double_lt s double_zero).
Proof.
  destruct s as [b|b| |b m e]; cbn; intros Hz Hn;
    try discriminate; try congruence; destruct b; reflexivity.
Qed.


Section AudioStepFurther.
Context `{framework : mlt_framework}.

(** X6.  At a speed of magnitude [2^j] (1.0, 2.0, 0.5, ... and their
    opposites) the rate handed out is the raw rate times [2^j], rounded
    towards zero, whenever that fits an [int]; at 1.0 and -1.0 it is the raw
    rate itself. *)
Theorem producer_get_audio_power_of_two_speed
    w frame params producer rest error raw frame' w' self s j :
  mlt_frame_pop_audio frame = (Some (item_producer producer), rest) ->
  mlt_frame_get_audio w rest params = (error, raw, frame', w') ->
  w' !! producer = Some self ->
  property_table_get_double (properties self) "speed"
    = S754_finite s 4503599627370496 (j - 52) ->
  -1022 <= j <= 992 ->
  int_range (frequency raw) ->
  int_range (scale_power_of_two (frequency raw) j) ->
  exists out,
    producer_get_audio w frame params = Some (error, out, frame', w') /\
    frequency out = scale_power_of_two (frequency raw) j /\
    (j = 0 -> frequency out = frequency raw).
Proof.
  intros Hpop Hup Hself Hspeed Hj Hraw Hfits.
  rewrite (producer_get_audio_transform _ _ _ _ _ _ _ _ _ _ Hpop Hup Hself).
  rewrite Hspeed. unfold speed_audio_transform.
  rewrite scale_by_power_of_two by assumption.
  apply in_int_range_spec in Hfits. rewrite Hfits. cbn.
  eexists. split; [reflexivity|]. cbn. split; [reflexivity|].
  intros ->. unfold scale_power_of_two. cbn. lia.
Qed.


(** X8.  The audio step does not resample: the sample groups handed out are
    the raw sample groups, each of them once, in their own or in the
    opposite order; their number is the same. *)
Theorem producer_get_audio_permutes_samples
    w frame params producer rest error raw frame' w' self status out frame'' w'' :
  mlt_frame_pop_audio frame = (Some (item_producer producer), rest) ->
  mlt_frame_get_audio w rest params = (error, raw, frame', w') ->
  w' !! producer = Some self ->
  producer_get_audio w frame params = Some (status, out, frame'', w'') ->
  Permutation (data out) (data raw) /\
  length (data out) = length (data raw) /\
  (data out = data raw \/ data out = rev (data raw)).
Proof.
  intros Hpop Hup Hself.
  rewrite (producer_get_audio_transform _ _ _ _ _ _ _ _ _ _ Hpop Hup Hself).
  unfold speed_audio_transform.
  destruct (double_to_int _) as [rate|]; [|discriminate].
  cbn. intros [= _ <- _ _]. cbn.
  destruct (double_lt _ _).
  - split; [|split].
    + symmetry. apply Permutation_rev.
    + apply length_rev.
    + now right.
  - split; [|split]; auto.
Qed.

(** X9.  Playing at the opposite speed is playing backwards: for the same
    raw audio, the step at speed [-s] hands out the rate, format and counts
    it hands out at speed [s], with the samples in the opposite order
    (for [s] other than the zeros and NaN). *)
Theorem producer_get_audio_opposite_speed
    wa wb frame params producer rest error raw frame' wa' wb' selfa selfb s outa :
  mlt_frame_pop_audio frame = (Some (item_producer producer), rest) ->
  mlt_frame_get_audio wa rest params = (error, raw, frame', wa') ->
  mlt_frame_get_audio wb rest params = (error, raw, frame', wb') ->
  wa' !! producer = Some selfa ->
  wb' !! producer = Some selfb ->
  property_table_get_double (properties selfa) "speed" = s ->
  property_table_get_double (properties selfb) "speed" = SFopp s ->
  is_zero s = false ->
  s <> S754_nan ->
  producer_get_audio wa frame params = Some (error, outa, frame', wa') ->
  producer_get_audio wb frame params =
    Some (error,
          {| data := rev (data outa); frequency := frequency outa;
             format := format outa; samples := samples outa;
             channels := channels outa |},
          frame', wb').
Proof.
  intros Hpop Hupa Hupb Hselfa Hselfb Hsa Hsb Hz Hn.
  rewrite (producer_get_audio_transform _ _ _ _ _ _ _ _ _ _ Hpop Hupa Hselfa).
  rewrite (producer_get_audio_transform _ _ _ _ _ _ _ _ _ _ Hpop Hupb Hselfb).
  rewrite Hsa, Hsb. unfold speed_audio_transform.
  rewrite fabs_opp, double_lt_opp by assumption.
  destruct (double_to_int _) as [rate|]; [|discriminate].
  cbn. intros [= <-]. cbn.
  destruct (double_lt s double_zero); cbn; [rewrite rev_involutive|]; reflexivity.
Qed.


End AudioStepFurther.

(** Half speed: 48000 Hz is handed out as 24000 Hz. *)
Lemma producer_get_audio_power_of_two_speed_witness :
  let framework := fixed_framework 0 demo_audio (demo_frame 0) in
  let half := S754_finite false 4503599627370496 (-1 - 52) in
  let frame := mlt_frame_push_audio (demo_frame 0) (item_producer 1) in
  exists out,
    producer_get_audio (demo_store half 1 25) frame demo_params
      = Some (0, out, demo_frame 0, demo_store half 1 25) /\
    frequency out = 24000 /\
    (-1 = 0 -> frequency out = 48000).
Proof.
  intros framework half frame.
  apply (producer_get_audio_power_of_two_speed (framework := framework)
           (demo_store half 1 25) frame demo_params 1%positive (demo_frame 0)
           0 demo_audio (demo_frame 0) (demo_store half 1 25)
           (demo_producer half 1) false (-1)
           demo_pop eq_refl eq_refl eq_refl
           ltac:(lia) ltac:(cbn; int_lia) ltac:(vm_compute; intuition discriminate)).
Defined.


Lemma producer_get_audio_permutes_samples_witness :
  let framework := fixed_framework 0 demo_audio (demo_frame 0) in
  let frame := mlt_frame_push_audio (demo_frame 0) (item_producer 1) in
  let w := demo_store (int_to_double (-2)) 1 25 in
  let out := {| data := [[5; 6]; [3; 4]; [1; 2]]; frequency := 96000;
                format := mlt_audio_s16; samples := 3; channels := 2 |} in
  Permutation (data out) (data demo_audio) /\
  length (data out) = length (data demo_audio) /\
  (data out = data demo_audio \/ data out = rev (data demo_audio)).
Proof.
  intros framework frame w out.
  apply (producer_get_audio_permutes_samples (framework := framework)
           w frame demo_params 1%positive (demo_frame 0) 0 demo_audio (demo_frame 0) w
           (demo_producer (int_to_double (-2)) 1) 0 out (demo_frame 0) w
           demo_pop eq_refl eq_refl eq_refl).
Defined.

(** Speed 2.0 and speed -2.0 on the same three sample groups. *)
Lemma producer_get_audio_opposite_speed_witness :
  let framework := fixed_framework 0 demo_audio (demo_frame 0) in
  let frame := mlt_frame_push_audio (demo_frame 0) (item_producer 1) in
  producer_get_audio (demo_store (SFopp (int_to_double 2)) 1 25) frame demo_params =
    Some (0,
          {| data := [[5; 6]; [3; 4]; [1; 2]]; frequency := 96000;
             format := mlt_audio_s16; samples := 3; channels := 2 |},
          demo_frame 0, demo_store (SFopp (int_to_double 2)) 1 25).
Proof.
  intros framework frame.
  apply (producer_get_audio_opposite_speed (framework := framework)
           (demo_store (int_to_double 2) 1 25)
           (demo_store (SFopp (int_to_double 2)) 1 25)
           frame demo_params 1%positive (demo_frame 0) 0 demo_audio (demo_frame 0)
           (demo_store (int_to_double 2) 1 25)
           (demo_store (SFopp (int_to_double 2)) 1 25)
           (demo_producer (int_to_double 2) 1)
           (demo_producer (SFopp (int_to_double 2)) 1)
           (int_to_double 2)
           {| data := [[1; 2]; [3; 4]; [5; 6]]; frequency := 96000;
              format := mlt_audio_s16; samples := 3; channels := 2 |}
           demo_pop eq_refl eq_refl eq_refl eq_refl eq_refl eq_refl eq_refl
           ltac:(discriminate) eq_refl).
Defined.


(** ** Frame production *)

Section FrameSourceFurther.
Context `{framework : mlt_framework}.

(** X11.  With the restriction enabled and the range valid, the frame is
    requested from the inner producer standing at a frame of the range,
    whatever its position was; a position that was inside the range is kept;
    and no other object of the store, the producer's own configuration
    included, is touched. *)
Theorem producer_get_frame_position_in_range
    w producer index self pdata FRAME_START FRAME_END limit_enabled inner POSITION :
  w !! producer = Some self ->
  child self = Some pdata ->
  property_table_get_int (properties self) "start_frame" = Some FRAME_START ->
  property_table_get_int (properties self) "end_frame" = Some FRAME_END ->
  property_table_get_int (properties self) "limit_enabled" = Some limit_enabled ->
  w !! producer_internal pdata = Some inner ->
  property_table_get_int (properties inner) "_position" = Some POSITION ->
  truthy limit_enabled = true ->
  truthy (is_valid_range FRAME_START FRAME_END) = true ->
  exists restricted w1,
    FRAME_START <= restricted <= FRAME_END /\
    (FRAME_START <= POSITION <= FRAME_END -> restricted = POSITION) /\
    mlt_producer_position w1 (producer_internal pdata) = Some restricted /\
    (forall other, other <> producer_internal pdata -> w1 !! other = w !! other) /\
    producer_get_frame w producer index =
      (let '(retval, frame, w2) :=
         mlt_service_get_frame w1 (producer_internal pdata) index in
       frame ← attach_audio_step producer frame;
       Some (retval, frame, w2)).
Proof.
  intros Hself Hchild Hs He Hl Hinner Hpos Hlimit Hvalid.
  assert (Hposition : mlt_producer_position w (producer_internal pdata) = Some POSITION).
  { unfold mlt_producer_position, mlt_properties_get_int, MLT_PRODUCER_PROPERTIES.
    rewrite Hinner. exact Hpos. }
  pose proof (property_table_get_int_range _ _ _ Hs) as Hsr.
  pose proof (property_table_get_int_range _ _ _ He) as Her.
  pose proof (proj1 (is_valid_range_true _ _) Hvalid) as Hv.
  destruct (restrict_range_bounds POSITION FRAME_START FRAME_END)
    as (restricted & Hr & Hbounds); try assumption; try int_lia.
  rewrite (producer_get_frame_steps _ _ _ _ _ _ _ _ _ Hself Hchild Hs He Hl Hposition).
  unfold remap_position. rewrite Hlimit, Hvalid. cbn [andb].
  rewrite Hr. cbn [mbind option_bind].
  unfold mlt_properties_set_position, MLT_PRODUCER_PROPERTIES.
  rewrite Hinner. cbn [mbind option_bind].
  exists restricted,
    (<[producer_internal pdata :=
         {| properties := <["_position" := prop_int restricted]> (properties inner);
            child := child inner |}]> w).
  split; [exact Hbounds|]. split; [|split; [|split]].
  - intros Hin.
    rewrite restrict_range_fixed in Hr by (try assumption; int_lia).
    congruence.
  - unfold mlt_producer_position, mlt_properties_get_int, MLT_PRODUCER_PROPERTIES.
    rewrite lookup_insert_eq. cbn [mbind option_bind properties].
    unfold property_table_get_int. rewrite lookup_insert_eq.
    f_equal. apply to_int_id. int_lia.
  - intros other Hother. apply lookup_insert_ne. congruence.
  - reflexivity.
Qed.

End FrameSourceFurther.

(** The inner producer stands at [INT_MIN]: the frame is requested at
    frame 13 of the range 10 to 20. *)
Lemma producer_get_frame_position_in_range_witness :
  let framework := fixed_framework 0 demo_audio (demo_frame 0) in
  exists restricted w1,
    10 <= restricted <= 20 /\
    (10 <= INT_MIN <= 20 -> restricted = INT_MIN) /\
    mlt_producer_position w1 2 = Some restricted /\
    (forall other, other <> 2%positive ->
                   w1 !! other = demo_store double_zero 1 INT_MIN !! other) /\
    producer_get_frame (demo_store double_zero 1 INT_MIN) 1 7 =
      (let '(retval, frame, w2) := mlt_service_get_frame w1 2 7 in
       frame ← attach_audio_step 1 frame;
       Some (retval, frame, w2)).
Proof.
  intros framework.
  apply (producer_get_frame_position_in_range (framework := framework)
           (demo_store double_zero 1 INT_MIN) 1%positive 7
           (demo_producer double_zero 1) {| producer_internal := 2 |}
           10 20 1 (demo_inner INT_MIN) INT_MIN
           eq_refl eq_refl eq_refl eq_refl eq_refl eq_refl eq_refl eq_refl eq_refl).
Defined.

(** ** Construction and teardown *)


(** X12.  The constructor returns a producer exactly when a resource was
    given, the producer and its private data could be allocated, and the
    factory made an inner producer for the service [abnormal] and that
    resource; the producer returned is the one [mlt_producer_new] made. *)
Theorem producer_krita_init_returns_iff env arg producer :
  fst (producer_krita_init env arg) = Some producer <->
  exists resource internal,
    arg = Some resource /\
    new_producer env = Some producer /\
    new_pdata env = true /\
    factory_producer env "abnormal" resource = Some internal.
Proof.
  unfold producer_krita_init.
  destruct arg as [resource|], (new_producer env) as [p|] eqn:Hp,
    (new_pdata env) eqn:Hd; cbn;
    try (split; [discriminate | intros (? & ? & ? & ? & ? & ?); congruence]).
  destruct (factory_producer env "abnormal" resource) as [internal|] eqn:Hf; cbn.
  - split.
    + intros [= <-]. eauto 6.
    + intros (? & ? & _ & [= <-] & _). reflexivity.
  - split; [discriminate|].
    intros (r & i & [= <-] & _ & _ & Hi). congruence.
Qed.

(** X13.  When the constructor fails, it hands back what it had allocated:
    the producer, if there was one, is closed once and freed once, the
    private data, if there was one, is freed once; no speed is set, and no
    producer other than the one of [mlt_producer_new] is closed (the inner
    producer is null on every failing path). *)
Theorem producer_krita_init_failure_releases env arg :
  fst (producer_krita_init env arg) = None ->
  let effects := snd (producer_krita_init env arg) in
  (forall producer, new_producer env = Some producer ->
     times (closes producer) effects = 1%nat /\
     times (frees_producer producer) effects = 1%nat) /\
  (new_producer env = None ->
     forall producer, times (frees_producer producer) effects = 0%nat) /\
  times frees_pdata effects = (if new_pdata env then 1%nat else 0%nat) /\
  times sets_speed effects = 0%nat /\
  (forall closed, times (closes closed) effects <> 0%nat ->
     new_producer env = Some closed).
Proof.
  unfold producer_krita_init.
  destruct arg as [resource|], (new_producer env) as [p|],
    (new_pdata env); cbn;
    try destruct (factory_producer env "abnormal" resource) as [internal|]; cbn;
    try discriminate; intros _; unfold times; cbn;
    repeat split; try discriminate; try reflexivity; try congruence;
    try (intros producer [= <-]; rewrite Pos.eqb_refl; reflexivity);
    try (intros closed; destruct (Pos.eqb_spec p closed) as [-> | _];
         cbn; congruence).
  all: match goal with H : Some _ = Some _ |- _ => injection H as <- end.
  all: rewrite Pos.eqb_refl; reflexivity.
Qed.

Lemma producer_krita_init_failure_releases_witness :
  let env := demo_allocation true in
  fst (producer_krita_init env (Some "missing.wav")) = None /\
  times (closes 1) (snd (producer_krita_init env (Some "missing.wav"))) = 1%nat /\
  times (frees_producer 1) (snd (producer_krita_init env (Some "missing.wav"))) = 1%nat /\
  times frees_pdata (snd (producer_krita_init env (Some "missing.wav"))) = 1%nat.
Proof.
  intros env. split; [reflexivity|].
  destruct (producer_krita_init_failure_releases env (Some "missing.wav") eq_refl)
    as (Hproducer & _ & Hpdata & _).
  destruct (Hproducer 1%positive eq_refl) as [Hclose Hfree].
  repeat split; assumption.
Defined.




